(** * react-three-flex: the Flex container's reflow engine

    A shallow embedding of [src/Flex.tsx] (the box registry, the dirty
    flag, the per-frame check and [reflow]) together with the context
    interface of [src/context.ts].

    Conventions of the embedding.
    - JavaScript numbers are idealised as rationals ([Q]); numeric
      equalities between computed values are stated with [==].
    - Yoga nodes and THREE groups are objects compared by identity; they
      are represented by their identity, a natural number.
    - The mutable refs of the component ([boxesRef], [dirtyRef],
      [rootGroup]), the Yoga node store and the group positions form one
      explicit state, threaded by a small state monad that also records
      the calls made to the outside world.
    - The constraint solver, the two bounding-box measurements and
      [getRootShift] live outside the modelled file; they are the fields
      of the class [External]. *)

From Stdlib Require Import QArith Qminmax Lqa ZArith.
From stdpp Require Import base option list gmap strings.

Local Open Scope Q_scope.

(** ** Identities, values and records *)

Definition YogaNode := nat.
Definition Group := nat.

(** A Yoga dimension: a number or a solver token such as a percentage. *)
Inductive YogaValue :=
| YNum (q : Q)
| YStr (s : string).

(** The part of [R3FlexProps] that [Flex.tsx] reads; entries that are
    [undefined] are [None]. *)
Record R3FlexProps := mkProps {
  width : option YogaValue;
  height : option YogaValue
}.

Record BoxesItem := mkBox {
  node : YogaNode;
  group : Group;
  flexProps : R3FlexProps;
  centerAnchor : bool
}.

Inductive Axis := X | Y | Z3.

Module Vector3.
Record t := mk { x : Q; y : Q; z : Q }.

(** [vec[axis]] *)
Definition get (a : Axis) (v : t) : Q :=
  match a with X => x v | Y => y v | Z3 => z v end.

(** Component-wise numeric equality. *)
Definition eq (u v : t) : Prop :=
  x u == x v /\ y u == y v /\ z u == z v.
End Vector3.

Module Layout.
(** The result of [node.getComputedLayout()]. *)
Record t := mk { left : Q; top : Q; width : Q; height : Q }.
End Layout.

(** ** Array primitives used by the registry *)

Fixpoint findIndex_from {A} (p : A -> bool) (l : list A) (i : Z) : Z :=
  match l with
  | [] => (-1)%Z
  | a :: l' => if p a then i else findIndex_from p l' (i + 1)%Z
  end.

(** [Array.prototype.findIndex]: the first index whose element satisfies
    the predicate, [-1] when there is none. *)
Definition findIndex {A} (p : A -> bool) (l : list A) : Z :=
  findIndex_from p l 0%Z.

(** [Array.prototype.splice(start, deleteCount)] without inserted
    items; a negative [start] counts from the end of the array. *)
Definition splice {A} (start : Z) (deleteCount : nat) (l : list A) : list A :=
  let len := Z.of_nat (length l) in
  let s := if (start <? 0)%Z then Z.to_nat (Z.max (len + start) 0)
           else Z.to_nat (Z.min start len) in
  take s l ++ drop (s + deleteCount) l.

(** ** The Yoga node store *)

Record NodeStyle := mkStyle {
  styleWidth : option YogaValue;
  styleHeight : option YogaValue;
  children : list YogaNode
}.

Definition freshStyle : NodeStyle := mkStyle None None [].

Record Yoga := mkYoga {
  styles : gmap YogaNode NodeStyle;
  layouts : YogaNode -> Layout.t
}.

Definition nodeStyle (yg : Yoga) (n : YogaNode) : NodeStyle :=
  default freshStyle (styles yg !! n).

Definition yoga_setWidth (n : YogaNode) (v : YogaValue) (yg : Yoga) : Yoga :=
  let st := nodeStyle yg n in
  mkYoga (<[n := mkStyle (Some v) (styleHeight st) (children st)]> (styles yg))
         (layouts yg).

Definition yoga_setHeight (n : YogaNode) (v : YogaValue) (yg : Yoga) : Yoga :=
  let st := nodeStyle yg n in
  mkYoga (<[n := mkStyle (styleWidth st) (Some v) (children st)]> (styles yg))
         (layouts yg).

Definition yoga_getChildCount (n : YogaNode) (yg : Yoga) : nat :=
  length (children (nodeStyle yg n)).

(** ** State and effects *)

Record FlexState := mkState {
  boxesRef : list BoxesItem;
  dirtyRef : bool;
  rootGroup : option Group;
  yoga : Yoga;
  scene : gmap Group Vector3.t
}.

Definition set_boxesRef (l : list BoxesItem) (s : FlexState) : FlexState :=
  mkState l (dirtyRef s) (rootGroup s) (yoga s) (scene s).
Definition set_dirtyRef (d : bool) (s : FlexState) : FlexState :=
  mkState (boxesRef s) d (rootGroup s) (yoga s) (scene s).
Definition set_yoga (yg : Yoga) (s : FlexState) : FlexState :=
  mkState (boxesRef s) (dirtyRef s) (rootGroup s) yg (scene s).
Definition set_scene (sc : gmap Group Vector3.t) (s : FlexState) : FlexState :=
  mkState (boxesRef s) (dirtyRef s) (rootGroup s) (yoga s) sc.

(** Calls that leave the component, in the order they are made. *)
Inductive Event :=
| EvGetOBBSize (g root : Group)
| EvSetFromObject (g : Group)
| EvSetWidth (n : YogaNode) (v : YogaValue)
| EvSetHeight (n : YogaNode) (v : YogaValue)
| EvCalculateLayout (n : YogaNode) (w h : Q) (dir : Z)
| EvPositionCopy (g : Group) (p : Vector3.t)
| EvOnReflow (totalWidth totalHeight : Q)
| EvInvalidate.

(** State monad with an event log. *)
Definition M (A : Type) : Type := FlexState -> A * FlexState * list Event.

Definition ret {A} (a : A) : M A := fun s => (a, s, []).
Definition bind {A B} (k : A -> M B) (m : M A) : M B :=
  fun s => let '(a, s1, e1) := m s in
           let '(b, s2, e2) := k a s1 in
           (b, s2, e1 ++ e2).
#[global] Instance M_ret : MRet M := @ret.
#[global] Instance M_bind : MBind M := @bind.
Definition gets {A} (f : FlexState -> A) : M A := fun s => (f s, s, []).
Definition modify (f : FlexState -> FlexState) : M unit := fun s => (tt, f s, []).
Definition emit (e : Event) : M unit := fun s => (tt, s, [e]).

Definition result {A} (m : M A) (s : FlexState) : A := (m s).1.1.
Definition exec {A} (m : M A) (s : FlexState) : FlexState := (m s).1.2.
Definition events {A} (m : M A) (s : FlexState) : list Event := (m s).2.

(** [array.forEach(f)] *)
Fixpoint forEach {A} (l : list A) (f : A -> M unit) : M unit :=
  match l with
  | [] => ret tt
  | a :: l' => f a ;; forEach l' f
  end.

(** ** The box registry ([Flex.tsx], lines 224-246) *)

Definition registerBox (n : YogaNode) (g : Group) (fp : R3FlexProps)
    (ca : bool) : M bool :=
  boxes ← gets boxesRef;
  let i := findIndex (fun b => bool_decide (node b = n)) boxes in
  let boxItem := mkBox n g fp ca in
  if bool_decide (i ≠ (-1)%Z) then
    modify (set_boxesRef (<[Z.to_nat i := boxItem]> boxes));;
    ret false
  else
    modify (set_boxesRef (boxes ++ [boxItem]));;
    ret true.

Definition unregisterBox (n : YogaNode) : M unit :=
  boxes ← gets boxesRef;
  let i := findIndex (fun b => bool_decide (node b = n)) boxes in
  if bool_decide (i ≠ (-1)%Z) then
    modify (set_boxesRef (splice i 1 boxes))
  else
    ret tt.

(** ** Invalidation ([Flex.tsx], lines 255-260) *)

Definition invalidate : M unit := emit EvInvalidate.

Definition requestReflow : M unit :=
  modify (set_dirtyRef true);;
  invalidate.

(** ** Calls through the shared context ([context.ts]) *)

Inductive ContextCall :=
| CallRequestReflow
| CallRegisterBox (n : YogaNode) (g : Group) (fp : R3FlexProps) (ca : bool)
| CallUnregisterBox (n : YogaNode).

Definition runCall (c : ContextCall) : M unit :=
  match c with
  | CallRequestReflow => requestReflow
  | CallRegisterBox n g fp ca => registerBox n g fp ca;; ret tt
  | CallUnregisterBox n => unregisterBox n
  end.

Definition runCalls (cs : list ContextCall) : M unit := forEach cs runCall.

Definition isRequestReflow (c : ContextCall) : bool :=
  match c with CallRequestReflow => true | _ => false end.

(** ** Container properties *)

Inductive FlexPlane := xy | yz | xz.

Inductive FlexYogaDirection := ltr | rtl | yogaDirectionOf (d : Z).

Definition DIRECTION_LTR : Z := 1%Z.
Definition DIRECTION_RTL : Z := 2%Z.

(** The non-flex props of [FlexImpl] that the reflow machinery reads.
    [containerSize] is the prop [size].  The [onReflow] listener is code
    of the caller: what it does to the component it does through the
    shared context, so it is given by the context calls it makes when it
    is handed the two totals (for instance one [requestReflow]). *)
Record FlexProps := mkFlexProps {
  containerSize : Vector3.t;
  yogaDirection : FlexYogaDirection;
  plane : FlexPlane;
  scaleFactor : Q;
  onReflow : option (Q -> Q -> list ContextCall);
  disableSizeRecalc : bool;
  rootCenterAnchor : option bool
}.

(** The defaults of the destructuring pattern of [FlexImpl]. *)
Definition defaultProps : FlexProps :=
  mkFlexProps (Vector3.mk 1 1 1) ltr xy 100 None false None.

(** [plane[0] as Axis] *)
Definition mainAxis (p : FlexPlane) : Axis :=
  match p with xy => X | yz => Y | xz => X end.

(** [plane[1] as Axis] *)
Definition crossAxis (p : FlexPlane) : Axis :=
  match p with xy => Y | yz => Z3 | xz => Z3 end.

(** Modelled from the spec: [getDepthAxis] of [util] is not part of the
    modelled sources.  The depth axis is "the plane's implicit third
    axis"; "for plane xy, depth axis is z". *)
Definition getDepthAxis (p : FlexPlane) : Axis :=
  match p with xy => Z3 | yz => X | xz => Y end.

(** Modelled from the spec: [getFlex2DSize] of [util] is not part of the
    modelled sources.  It yields the "plane-projected container size":
    the components of [size] along the main and the cross axis. *)
Definition getFlex2DSize (size : Vector3.t) (p : FlexPlane) : Q * Q :=
  (Vector3.get (mainAxis p) size, Vector3.get (crossAxis p) size).

Definition yogaDirection_ (d : FlexYogaDirection) : Z :=
  match d with
  | ltr => DIRECTION_LTR
  | rtl => DIRECTION_RTL
  | yogaDirectionOf d' => d'
  end.

(** An object literal with computed keys: the properties in the order
    they are written, a later key overriding an earlier equal one. *)
Definition AxisObject := list (Axis * Q).

Definition Axis_eqb (a b : Axis) : bool :=
  match a, b with
  | X, X | Y, Y | Z3, Z3 => true
  | _, _ => false
  end.

Fixpoint getProperty (k : Axis) (o : AxisObject) : option Q :=
  match o with
  | [] => None
  | (k', v) :: o' =>
      match getProperty k o' with
      | Some v' => Some v'
      | None => if Axis_eqb k' k then Some v else None
      end
  end.

(** Modelled from the spec: [vectorFromObject] of [util] is not part of
    the modelled sources.  It turns the object with one entry per axis
    "into a 3D vector"; a component that the object lacks is [0], the
    default of the vector constructor. *)
Definition vectorFromObject (o : AxisObject) : Vector3.t :=
  Vector3.mk (default 0 (getProperty X o))
             (default 0 (getProperty Y o))
             (default 0 (getProperty Z3 o)).

(** ** External collaborators *)

Class External := {
  (** The constraint solver behind [node.calculateLayout]: a
      deterministic function of the node tree and its styles, the root,
      the available width and height and the direction. *)
  solveLayout :
    gmap YogaNode NodeStyle -> YogaNode -> Q -> Q -> Z -> YogaNode -> Layout.t;
  (** [getOBBSize(group, root, boundingBox, vec)]: the value left in [vec]. *)
  getOBBSize : gmap Group Vector3.t -> Group -> Group -> Vector3.t;
  (** [boundingBox.setFromObject(group).getSize(vec)]: the value left in [vec]. *)
  getSizeFromObject : gmap Group Vector3.t -> Group -> Vector3.t;
  (** [getRootShift(rootCenterAnchor, rootWidth, rootHeight, node)] *)
  getRootShift : Yoga -> option bool -> Q -> Q -> YogaNode -> Q * Q
}.

(** ** JavaScript truthiness of a dimension and [a || b] *)

Definition truthy (v : YogaValue) : bool :=
  match v with
  | YNum q => negb (Qeq_bool q 0)
  | YStr s => negb (String.eqb s EmptyString)
  end.

Definition orElse (o : option YogaValue) (d : YogaValue) : YogaValue :=
  match o with
  | Some v => if truthy v then v else d
  | None => d
  end.

(** [typeof v === 'number' ? v * scaleFactor : v] *)
Definition scaleValue (sf : Q) (o : option YogaValue) : option YogaValue :=
  match o with
  | Some (YNum q) => Some (YNum (q * sf))
  | other => other
  end.

(** The running bounds [minX], [maxX], [minY], [maxY] of [reflow]. *)
Record Bounds := mkBounds { minX : Q; maxX : Q; minY : Q; maxY : Q }.

Fixpoint forEachWith {A S} (l : list A) (f : A -> S -> M S) (acc : S) : M S :=
  match l with
  | [] => ret acc
  | a :: l' => acc' ← f a acc; forEachWith l' f acc'
  end.

(** ** The reflow procedure ([Flex.tsx], lines 293-363) *)

Section Reflow.
Context `{External}.
Variable props : FlexProps.

Definition node_setWidth (n : YogaNode) (v : YogaValue) : M unit :=
  emit (EvSetWidth n v);;
  modify (fun s => set_yoga (yoga_setWidth n v (yoga s)) s).

Definition node_setHeight (n : YogaNode) (v : YogaValue) : M unit :=
  emit (EvSetHeight n v);;
  modify (fun s => set_yoga (yoga_setHeight n v (yoga s)) s).

(** The two measurement paths; each returns the value left in [vec]. *)
Definition measureOBB (g root : Group) : M Vector3.t :=
  emit (EvGetOBBSize g root);;
  gets (fun s => getOBBSize (scene s) g root).

Definition measureFromObject (g : Group) : M Vector3.t :=
  emit (EvSetFromObject g);;
  gets (fun s => getSizeFromObject (scene s) g).

(** Body of the first [forEach]: recalculate the size of one box. *)
Definition recalcSize (b : BoxesItem) : M unit :=
  let scaledWidth := scaleValue (scaleFactor props) (width (flexProps b)) in
  let scaledHeight := scaleValue (scaleFactor props) (height (flexProps b)) in
  match scaledWidth, scaledHeight with
  | Some sw, Some sh =>
      node_setWidth (node b) sw;;
      node_setHeight (node b) sh
  | _, _ =>
      count ← gets (fun s => yoga_getChildCount (node b) (yoga s));
      if (count =? 0)%nat then
        root ← gets rootGroup;
        vec ← match root with
              | Some r => measureOBB (group b) r
              | None => measureFromObject (group b)
              end;
        node_setWidth (node b)
          (orElse scaledWidth
             (YNum (Vector3.get (mainAxis (plane props)) vec * scaleFactor props)));;
        node_setHeight (node b)
          (orElse scaledHeight
             (YNum (Vector3.get (crossAxis (plane props)) vec * scaleFactor props)))
      else ret tt
  end.

(** The [position] computed for one box (lines 335-339). *)
Definition boxPosition (shift : Q * Q) (l : Layout.t) (ca : bool) : Vector3.t :=
  let '(mainAxisShift, crossAxisShift) := shift in
  vectorFromObject
    [ (mainAxis (plane props),
        (mainAxisShift + Layout.left l + (if ca then Layout.width l / 2 else 0))
        / scaleFactor props);
      (crossAxis (plane props),
        - (crossAxisShift + Layout.top l + (if ca then Layout.height l / 2 else 0))
        / scaleFactor props);
      (getDepthAxis (plane props), 0) ].

(** Body of the second [forEach]: reposition one box and widen the
    running bounds. *)
Definition reposition (rootWidth rootHeight : Q)
    (b : BoxesItem) (acc : Bounds) : M Bounds :=
  yg ← gets yoga;
  let l := layouts yg (node b) in
  let shift := getRootShift yg (rootCenterAnchor props) rootWidth rootHeight (node b) in
  let position := boxPosition shift l (centerAnchor b) in
  let acc' :=
    mkBounds (Qmin (minX acc) (Layout.left l))
             (Qmax (maxX acc) (Layout.left l + Layout.width l))
             (Qmin (minY acc) (Layout.top l))
             (Qmax (maxY acc) (Layout.top l + Layout.height l)) in
  emit (EvPositionCopy (group b) position);;
  modify (fun s => set_scene (<[group b := position]> (scene s)) s);;
  ret acc'.

(** [node.calculateLayout(width, height, direction)] on the root. *)
Definition calculateLayout (rootNode : YogaNode) (w h : Q) (dir : Z) : M unit :=
  emit (EvCalculateLayout rootNode w h dir);;
  modify (fun s =>
    set_yoga (mkYoga (styles (yoga s))
                     (solveLayout (styles (yoga s)) rootNode w h dir)) s).

(** Lines 294-317: recalculate all the sizes unless disabled. *)
Definition recalcSizes : M unit :=
  if negb (disableSizeRecalc props) then
    boxes ← gets boxesRef;
    forEach boxes recalcSize
  else ret tt.

(** Line 320: perform the yoga layout calculation. *)
Definition performLayout (rootNode : YogaNode) : M unit :=
  let '(flexWidth, flexHeight) := getFlex2DSize (containerSize props) (plane props) in
  calculateLayout rootNode (flexWidth * scaleFactor props)
    (flexHeight * scaleFactor props) (yogaDirection_ (yogaDirection props)).

(** Line 350: [onReflow && onReflow(...)]. *)
Definition notifyReflow (bounds : Bounds) : M unit :=
  match onReflow props with
  | Some listener =>
      let totalWidth := (maxX bounds - minX bounds) / scaleFactor props in
      let totalHeight := (maxY bounds - minY bounds) / scaleFactor props in
      emit (EvOnReflow totalWidth totalHeight);;
      runCalls (listener totalWidth totalHeight)
  | None => ret tt
  end.

Definition reflow (rootNode : YogaNode) : M unit :=
  recalcSizes;;
  performLayout rootNode;;
  rootWidth ← gets (fun s => Layout.width (layouts (yoga s) rootNode));
  rootHeight ← gets (fun s => Layout.height (layouts (yoga s) rootNode));
  boxes ← gets boxesRef;
  bounds ← forEachWith boxes (reposition rootWidth rootHeight) (mkBounds 0 0 0 0);
  notifyReflow bounds;;
  invalidate.

(** The [useFrame] callback. *)
Definition frame (rootNode : YogaNode) : M unit :=
  dirty ← gets dirtyRef;
  if (dirty : bool) then
    modify (set_dirtyRef false);;
    reflow rootNode
  else ret tt.
End Reflow.

(** ** Sample collaborators, used to run the model on concrete inputs *)

(** Modelled from the spec: [getRootShift] of [util] is not part of the
    modelled sources.  "If the container itself is centered, the shift
    moves the whole computed layout by half the root's width/height
    along each axis so children are laid out around the container's own
    origin rather than its top-left corner; if not centered, the shift
    is zero."  [reflow] adds the shift to [left] and [top], so laying
    the children out around the origin means subtracting half the root
    size.  The specification describes the shift for the children of the
    container; it is silent on boxes nested in other boxes, and the
    statements use the centered shift only for boxes whose node is a child
    of the root node. *)
Definition getRootShift_spec (yg : Yoga) (rootCenterAnchor : option bool)
    (rootWidth rootHeight : Q) (n : YogaNode) : Q * Q :=
  match rootCenterAnchor with
  | Some true => (- (rootWidth / 2), - (rootHeight / 2))
  | _ => (0, 0)
  end.

Definition numericOr0 (o : option YogaValue) : Q :=
  match o with Some (YNum q) => q | _ => 0 end.

(** A toy solver: the root fills the available space, every other node
    sits at offset [(pad, pad)] with its own numeric width and height. *)
Definition sampleSolver (pad : Q) (st : gmap YogaNode NodeStyle) (root : YogaNode)
    (w h : Q) (dir : Z) (n : YogaNode) : Layout.t :=
  if (n =? root)%nat then Layout.mk 0 0 w h
  else
    let sty := default freshStyle (st !! n) in
    Layout.mk pad pad (numericOr0 (styleWidth sty)) (numericOr0 (styleHeight sty)).

(** Collaborators with the toy solver, a constant measurement and a
    given root shift. *)
Definition sampleExternal (pad : Q) (extent : Vector3.t)
    (shift : Yoga -> option bool -> Q -> Q -> YogaNode -> Q * Q) : External :=
  {| solveLayout := sampleSolver pad;
     getOBBSize := fun _ _ _ => extent;
     getSizeFromObject := fun _ _ => extent;
     getRootShift := shift |}.

Definition emptyYoga : Yoga := mkYoga ∅ (fun _ => Layout.mk 0 0 0 0).

(** The state of a freshly mounted container: no boxes, dirty. *)
Definition initialState : FlexState := mkState [] true (Some 0%nat) emptyYoga ∅.

(** ** Auxiliary definitions for the statements *)

(** The node-identity test [b.node === node] of the registry. *)
Definition sameNode (n : YogaNode) (b : BoxesItem) : bool := bool_decide (node b = n).

(** [typeof v === 'number' ? v * scaleFactor : v] on a defined value. *)
Definition scaleDim (sf : Q) (v : YogaValue) : YogaValue :=
  match v with
  | YNum q => YNum (q * sf)
  | YStr _ => v
  end.

(** What the measurement branch of [reflow] reads for a group, and the
    call it makes, depending on whether [rootGroup.current] is set. *)
Definition measuredExtent `{External} (s : FlexState) (g : Group) : Vector3.t :=
  match rootGroup s with
  | Some r => getOBBSize (scene s) g r
  | None => getSizeFromObject (scene s) g
  end.

Definition measurementCall (s : FlexState) (g : Group) : Event :=
  match rootGroup s with
  | Some r => EvGetOBBSize g r
  | None => EvSetFromObject g
  end.

Definition isMeasurement (e : Event) : bool :=
  match e with
  | EvGetOBBSize _ _ | EvSetFromObject _ => true
  | _ => false
  end.

Definition isCalculateLayout (e : Event) : bool :=
  match e with EvCalculateLayout _ _ _ _ => true | _ => false end.

Definition isOnReflow (e : Event) : bool :=
  match e with EvOnReflow _ _ => true | _ => false end.

Definition isPositionCopy (e : Event) : bool :=
  match e with EvPositionCopy _ _ => true | _ => false end.

(** The effect on the node store of the [setWidth]/[setHeight] calls of
    a log. *)
Definition applyWrite (yg : Yoga) (e : Event) : Yoga :=
  match e with
  | EvSetWidth n v => yoga_setWidth n v yg
  | EvSetHeight n v => yoga_setHeight n v yg
  | _ => yg
  end.

Definition applyWrites (evs : list Event) (yg : Yoga) : Yoga :=
  fold_left applyWrite evs yg.

(** The state in which [reflow] starts repositioning: sizes
    recalculated, layout computed. *)
Definition laidOut `{External} (props : FlexProps) (rootNode : YogaNode)
    (s : FlexState) : FlexState :=
  exec (recalcSizes props;; performLayout props rootNode) s.

(** The position [reflow] computes for a box from the computed layout. *)
Definition positionOf `{External} (props : FlexProps) (rootNode : YogaNode)
    (s : FlexState) (b : BoxesItem) : Vector3.t :=
  let yg := yoga (laidOut props rootNode s) in
  boxPosition props
    (getRootShift yg (rootCenterAnchor props)
       (Layout.width (layouts yg rootNode)) (Layout.height (layouts yg rootNode))
       (node b))
    (layouts yg (node b)) (centerAnchor b).

(** Running bounds over a list of computed layouts, starting from [0]. *)
Definition boundsFrom (acc : Bounds) (ls : list Layout.t) : Bounds :=
  mkBounds
    (fold_left Qmin (Layout.left <$> ls) (minX acc))
    (fold_left Qmax ((fun l => Layout.left l + Layout.width l) <$> ls) (maxX acc))
    (fold_left Qmin (Layout.top <$> ls) (minY acc))
    (fold_left Qmax ((fun l => Layout.top l + Layout.height l) <$> ls) (maxY acc)).

Definition boxLayouts `{External} (props : FlexProps) (rootNode : YogaNode)
    (s : FlexState) : list Layout.t :=
  (fun b => layouts (yoga (laidOut props rootNode s)) (node b)) <$> boxesRef s.

(** The pair reported to [onReflow]. *)
Definition reflowTotals `{External} (props : FlexProps) (rootNode : YogaNode)
    (s : FlexState) : Q * Q :=
  let bounds := boundsFrom (mkBounds 0 0 0 0) (boxLayouts props rootNode s) in
  ((maxX bounds - minX bounds) / scaleFactor props,
   (maxY bounds - minY bounds) / scaleFactor props).

(** Number of layout recomputations recorded in a log. *)
Definition recomputations (evs : list Event) : nat :=
  length (filter (fun e => isCalculateLayout e = true) evs).

(** The [calculateLayout] call of a reflow. *)
Definition layoutCall (props : FlexProps) (rootNode : YogaNode) : Event :=
  EvCalculateLayout rootNode
    (Vector3.get (mainAxis (plane props)) (containerSize props) * scaleFactor props)
    (Vector3.get (crossAxis (plane props)) (containerSize props) * scaleFactor props)
    (yogaDirection_ (yogaDirection props)).

(** The [position.copy] calls of a reflow, in registration order. *)
Definition positionCalls `{External} (props : FlexProps) (rootNode : YogaNode)
    (s : FlexState) : list Event :=
  (fun b => EvPositionCopy (group b) (positionOf props rootNode s b)) <$> boxesRef s.

(** The [onReflow] call of a reflow, if there is a listener. *)
Definition reflowNotification `{External} (props : FlexProps) (rootNode : YogaNode)
    (s : FlexState) : list Event :=
  match onReflow props with
  | Some _ => [EvOnReflow (reflowTotals props rootNode s).1 (reflowTotals props rootNode s).2]
  | None => []
  end.

(** The state a reflow leaves behind. *)
Definition repositioned `{External} (props : FlexProps) (rootNode : YogaNode)
    (s : FlexState) : FlexState :=
  let s1 := laidOut props rootNode s in
  set_scene
    (fold_left (fun sc b => <[group b := positionOf props rootNode s b]> sc)
       (boxesRef s) (scene s1)) s1.

(** The context calls the listener makes in a reflow, the calls they
    cause and the state they leave. *)
Definition listenerCalls `{External} (props : FlexProps) (rootNode : YogaNode)
    (s : FlexState) : list ContextCall :=
  match onReflow props with
  | Some listener =>
      listener (reflowTotals props rootNode s).1 (reflowTotals props rootNode s).2
  | None => []
  end.

Definition listenerEvents `{External} (props : FlexProps) (rootNode : YogaNode)
    (s : FlexState) : list Event :=
  events (runCalls (listenerCalls props rootNode s)) (repositioned props rootNode s).

Definition afterListener `{External} (props : FlexProps) (rootNode : YogaNode)
    (s : FlexState) : FlexState :=
  exec (runCalls (listenerCalls props rootNode s)) (repositioned props rootNode s).

(** The calls of the size pass: measurements and size writes. *)
Definition isSizing (e : Event) : bool :=
  match e with
  | EvGetOBBSize _ _ | EvSetFromObject _ | EvSetWidth _ _ | EvSetHeight _ _ => true
  | _ => false
  end.

(** A listener that changes nothing of what a reflow reads: it may
    request a reflow but registers and unregisters nothing. *)
Definition passive (listener : Q -> Q -> list ContextCall) : Prop :=
  forall w h, Forall (fun c => isRequestReflow c = true) (listener w h).

Definition quietListener (props : FlexProps) : Prop :=
  match onReflow props with
  | Some listener => passive listener
  | None => True
  end.

(** Two scenes in which every group measures the same. *)
Definition sameMeasurements `{External} (sc sc' : gmap Group Vector3.t) : Prop :=
  forall g r, getOBBSize sc g r = getOBBSize sc' g r /\
              getSizeFromObject sc g = getSizeFromObject sc' g.

(** What the size pass reads from the state. *)
Definition sameSizeInputs `{External} (t t' : FlexState) : Prop :=
  rootGroup t = rootGroup t' /\
  (forall g, measuredExtent t g = measuredExtent t' g) /\
  (forall n, yoga_getChildCount n (yoga t) = yoga_getChildCount n (yoga t')).

(** The extent of the boxes alone: the greatest [left + width] minus the
    least [left], and the greatest [top + height] minus the least [top],
    both taken over the boxes' layouts only. *)
Definition extentOverBoxes (ls : list Layout.t) : option (Q * Q) :=
  match ls with
  | [] => None
  | l0 :: ls' =>
      let right := fun l => Layout.left l + Layout.width l in
      let bottom := fun l => Layout.top l + Layout.height l in
      Some (fold_left Qmax (right <$> ls') (right l0)
              - fold_left Qmin (Layout.left <$> ls') (Layout.left l0),
            fold_left Qmax (bottom <$> ls') (bottom l0)
              - fold_left Qmin (Layout.top <$> ls') (Layout.top l0))
  end.

(** A container of size [2 x 1] in the default plane, without listener. *)
Definition sampleProps : FlexProps :=
  mkFlexProps (Vector3.mk 2 1 1) ltr xy 100 None false None.

(** The same container with a listener that requests a reflow. *)
Definition samplePropsListening : FlexProps :=
  mkFlexProps (Vector3.mk 2 1 1) ltr xy 100
    (Some (fun _ _ => [CallRequestReflow])) false None.


Definition sizedBox : BoxesItem :=
  mkBox 1%nat 11%nat (mkProps (Some (YNum 1)) (Some (YNum (1 # 2)))) false.
Definition zeroWidthBox : BoxesItem :=
  mkBox 2%nat 12%nat (mkProps (Some (YNum 0)) None) true.
Definition parentBox : BoxesItem :=
  mkBox 3%nat 13%nat (mkProps None None) false.

(** Three registered boxes; node [3] has a child in the solver tree. *)
Definition sampleState : FlexState :=
  mkState [sizedBox; zeroWidthBox; parentBox] true (Some 0%nat)
    (mkYoga {[ 3%nat := mkStyle None None [4%nat] ]} (fun _ => Layout.mk 0 0 0 0)) ∅.


Definition sampleExtent : Vector3.t := Vector3.mk 3 2 1.

(** One registered box of size [1 x 0.5]. *)
Definition singleState : FlexState :=
  mkState [sizedBox] true (Some 0%nat) emptyYoga ∅.

(** Collaborators used for the examples: the toy solver without and with
    padding. *)
Definition plainExternal : External :=
  sampleExternal 0 sampleExtent getRootShift_spec.
Definition paddedExternal : External :=
  sampleExternal 10 sampleExtent getRootShift_spec.


(** ** Further definitions for the statements *)

(** The record the registry holds for a node: the first one whose node is
    identical to it, the one [findIndex] selects. *)
Definition lookupBox (n : YogaNode) (s : FlexState) : option BoxesItem :=
  find (sameNode n) (boxesRef s).

Definition isInvalidate (e : Event) : bool :=
  match e with EvInvalidate => true | _ => false end.

(** The boxes the size pass measures: a width or a height is missing
    and the node is a leaf of the solver tree. *)
Definition needsMeasurement (s : FlexState) (b : BoxesItem) : bool :=
  match width (flexProps b), height (flexProps b) with
  | Some _, Some _ => false
  | _, _ => (yoga_getChildCount (node b) (yoga s) =? 0)%nat
  end.

(** The sample container with size recalculation disabled. *)
Definition samplePropsNoRecalc : FlexProps :=
  mkFlexProps (Vector3.mk 2 1 1) ltr xy 100 None true None.

(** A leaf box with a width of [2] and no height. *)
Definition wideBox : BoxesItem :=
  mkBox 5%nat 15%nat (mkProps (Some (YNum 2)) None) false.

(** The sample registry on a container that is not dirty. *)
Definition cleanState : FlexState := set_dirtyRef false sampleState.

(** * Properties *)

(** ** Running monadic code *)

Ltac run :=
  unfold result, exec, events, mbind, M_bind, bind, mret, M_ret, ret,
    gets, modify, emit in *; cbn [fst snd] in *.

Lemma run_bind {A B} (m : M A) (k : A -> M B) (s : FlexState) :
  (m ≫= k) s =
  (result (k (result m s)) (exec m s),
   exec (k (result m s)) (exec m s),
   events m s ++ events (k (result m s)) (exec m s)).
Proof.
  run. destruct (m s) as [[a s1] e1]. cbn.
  destruct (k a s1) as [[b s2] e2]. reflexivity.
Qed.

Lemma exec_bind {A B} (m : M A) (k : A -> M B) s :
  exec (m ≫= k) s = exec (k (result m s)) (exec m s).
Proof. unfold exec at 1. rewrite run_bind. reflexivity. Qed.

Lemma events_bind {A B} (m : M A) (k : A -> M B) s :
  events (m ≫= k) s = events m s ++ events (k (result m s)) (exec m s).
Proof. unfold events at 1. rewrite run_bind. reflexivity. Qed.

Lemma result_bind {A B} (m : M A) (k : A -> M B) s :
  result (m ≫= k) s = result (k (result m s)) (exec m s).
Proof. unfold result at 1. rewrite run_bind. reflexivity. Qed.

Lemma exec_forEach_app {A} (l1 l2 : list A) (f : A -> M unit) s :
  exec (forEach (l1 ++ l2) f) s = exec (forEach l2 f) (exec (forEach l1 f) s).
Proof.
  revert s. induction l1 as [|a l1 IH]; intros s; [reflexivity|].
  cbn [forEach app]. rewrite !exec_bind. apply IH.
Qed.

(** ** [findIndex] and [splice] *)

Section FindIndex.
Context {A : Type} (p : A -> bool).

Lemma findIndex_from_none (l : list A) (i : Z) :
  Forall (fun a => p a = false) l -> findIndex_from p l i = (-1)%Z.
Proof.
  intros Hall. revert i. induction Hall as [|a l Ha _ IH]; intros i; cbn.
  - reflexivity.
  - rewrite Ha. apply IH.
Qed.

Lemma findIndex_from_first (l1 l2 : list A) (a : A) (i : Z) :
  Forall (fun a => p a = false) l1 -> p a = true ->
  findIndex_from p (l1 ++ a :: l2) i = (i + Z.of_nat (length l1))%Z.
Proof.
  intros Hall Ha. revert i. induction Hall as [|b l Hb _ IH]; intros i; cbn.
  - rewrite Ha. lia.
  - rewrite Hb, IH. lia.
Qed.

(** Either no element satisfies [p], or the list splits at the first
    one that does. *)
Lemma first_split (l : list A) :
  Forall (fun a => p a = false) l \/
  exists l1 a l2, l = l1 ++ a :: l2 /\
                  Forall (fun a => p a = false) l1 /\ p a = true.
Proof.
  induction l as [|b l IH].
  - left. constructor.
  - destruct (p b) eqn:Hb.
    + right. exists [], b, l. repeat split; [constructor | assumption].
    + destruct IH as [IH | (l1 & a & l2 & -> & Hl1 & Ha)].
      * left. constructor; assumption.
      * right. exists (b :: l1), a, l2.
        repeat split; [constructor; assumption | assumption].
Qed.

Lemma findIndex_none (l : list A) :
  Forall (fun a => p a = false) l -> findIndex p l = (-1)%Z.
Proof. apply findIndex_from_none. Qed.

Lemma findIndex_first (l1 l2 : list A) (a : A) :
  Forall (fun a => p a = false) l1 -> p a = true ->
  findIndex p (l1 ++ a :: l2) = Z.of_nat (length l1).
Proof.
  intros H1 H2. unfold findIndex.
  rewrite findIndex_from_first by assumption. lia.
Qed.
End FindIndex.

Lemma splice_one_at {A} (l1 l2 : list A) (a : A) :
  splice (Z.of_nat (length l1)) 1 (l1 ++ a :: l2) = l1 ++ l2.
Proof.
  unfold splice.
  destruct (Z.ltb_spec (Z.of_nat (length l1)) 0) as [Hneg | _]; [lia|].
  rewrite length_app. cbn [length].
  replace (Z.to_nat (Z.min _ _)) with (length l1) by lia.
  rewrite take_app_length.
  replace (length l1 + 1)%nat with (length (l1 ++ [a])) by (rewrite length_app; reflexivity).
  replace (l1 ++ a :: l2) with ((l1 ++ [a]) ++ l2) by (rewrite <- app_assoc; reflexivity).
  rewrite drop_app_length. reflexivity.
Qed.

Lemma absent_all_false (n : YogaNode) (l : list BoxesItem) :
  n ∉ node <$> l <-> Forall (fun b => sameNode n b = false) l.
Proof.
  rewrite Forall_forall. split.
  - intros Hn b Hb. unfold sameNode. apply bool_decide_eq_false.
    intros <-. apply Hn. apply list_elem_of_fmap. eauto.
  - intros Hall Hin. apply list_elem_of_fmap in Hin as (b & -> & Hb).
    specialize (Hall b Hb). unfold sameNode in Hall.
    apply bool_decide_eq_false in Hall. congruence.
Qed.

(** A registered node splits the list at its first record. *)
Lemma present_split (n : YogaNode) (l : list BoxesItem) :
  n ∈ node <$> l ->
  exists l1 old l2, l = l1 ++ old :: l2 /\ node old = n /\ n ∉ node <$> l1.
Proof.
  intros Hin. destruct (first_split (sameNode n) l) as [Hall | (l1 & a & l2 & -> & Hl1 & Ha)].
  - apply absent_all_false in Hall. contradiction.
  - exists l1, a, l2. repeat split.
    + unfold sameNode in Ha. apply bool_decide_eq_true in Ha. exact Ha.
    + apply absent_all_false. exact Hl1.
Qed.

Lemma registerBox_absent n g fp ca s :
  n ∉ node <$> boxesRef s ->
  registerBox n g fp ca s =
  (true, set_boxesRef (boxesRef s ++ [mkBox n g fp ca]) s, []).
Proof.
  intros Hn. apply absent_all_false in Hn.
  unfold registerBox. run. fold (sameNode n).
  rewrite (findIndex_none _ _ Hn). reflexivity.
Qed.

Lemma registerBox_present n g fp ca s l1 old l2 :
  boxesRef s = l1 ++ old :: l2 -> node old = n -> n ∉ node <$> l1 ->
  registerBox n g fp ca s =
  (false, set_boxesRef (l1 ++ mkBox n g fp ca :: l2) s, []).
Proof.
  intros Hs Hold Hn. apply absent_all_false in Hn.
  unfold registerBox. run. fold (sameNode n). rewrite Hs.
  rewrite (findIndex_first _ _ _ _ Hn) by (unfold sameNode; apply bool_decide_eq_true; exact Hold).
  rewrite bool_decide_eq_true_2 by lia.
  rewrite Nat2Z.id.
  replace (length l1) with (length l1 + 0)%nat by lia.
  rewrite insert_app_r. reflexivity.
Qed.

Lemma unregisterBox_absent n s :
  n ∉ node <$> boxesRef s -> unregisterBox n s = (tt, s, []).
Proof.
  intros Hn. apply absent_all_false in Hn.
  unfold unregisterBox. run. fold (sameNode n).
  rewrite (findIndex_none _ _ Hn). reflexivity.
Qed.

Lemma unregisterBox_present n s l1 old l2 :
  boxesRef s = l1 ++ old :: l2 -> node old = n -> n ∉ node <$> l1 ->
  unregisterBox n s = (tt, set_boxesRef (l1 ++ l2) s, []).
Proof.
  intros Hs Hold Hn. apply absent_all_false in Hn.
  unfold unregisterBox. run. fold (sameNode n). rewrite Hs.
  rewrite (findIndex_first _ _ _ _ Hn) by (unfold sameNode; apply bool_decide_eq_true; exact Hold).
  rewrite bool_decide_eq_true_2 by lia.
  rewrite splice_one_at. reflexivity.
Qed.

(** ** The registry: [registerBox] and [unregisterBox] *)

Lemma registered_runCall (n : YogaNode) (c : ContextCall) (s : FlexState) :
  n ∈ node <$> boxesRef s -> c ≠ CallUnregisterBox n ->
  n ∈ node <$> boxesRef (exec (runCall c) s).
Proof.
  intros Hin Hc. destruct c as [|m g fp ca|m]; cbn [runCall].
  - exact Hin.
  - rewrite exec_bind. change (exec (ret tt) ?t) with t.
    destruct (decide (m ∈ node <$> boxesRef s)) as [Hm | Hm].
    + destruct (present_split _ _ Hm) as (l1 & old & l2 & Hs & Hold & Hl1).
      unfold exec. rewrite (registerBox_present _ _ _ _ _ _ _ _ Hs Hold Hl1). cbn.
      rewrite Hs in Hin. rewrite fmap_app in *. rewrite fmap_cons in *.
      cbn [node]. rewrite Hold in Hin. exact Hin.
    + unfold exec. rewrite (registerBox_absent _ _ _ _ _ Hm). cbn.
      rewrite fmap_app. apply elem_of_app. left. exact Hin.
  - assert (m ≠ n) as Hmn by congruence.
    destruct (decide (m ∈ node <$> boxesRef s)) as [Hm | Hm].
    + destruct (present_split _ _ Hm) as (l1 & old & l2 & Hs & Hold & Hl1).
      unfold exec. rewrite (unregisterBox_present _ _ _ _ _ Hs Hold Hl1). cbn.
      rewrite Hs in Hin. rewrite fmap_app in *. rewrite fmap_cons in Hin.
      apply elem_of_app in Hin as [Hin | Hin]; apply elem_of_app; [left; exact Hin|].
      apply elem_of_cons in Hin as [Hin | Hin]; [congruence | right; exact Hin].
    + unfold exec. rewrite (unregisterBox_absent _ _ Hm). exact Hin.
Qed.

Lemma registered_runCalls (n : YogaNode) (cs : list ContextCall) (s : FlexState) :
  n ∈ node <$> boxesRef s -> CallUnregisterBox n ∉ cs ->
  n ∈ node <$> boxesRef (exec (runCalls cs) s).
Proof.
  revert s. induction cs as [|c cs IH]; intros s Hin Hcs; [exact Hin|].
  unfold runCalls. cbn [forEach]. rewrite exec_bind. apply IH.
  - apply registered_runCall; [exact Hin|].
    intros ->. apply Hcs. left.
  - intros Hc. apply Hcs. right. exact Hc.
Qed.

Lemma registered_after_registerBox n g fp ca s :
  n ∈ node <$> boxesRef (exec (registerBox n g fp ca) s).
Proof.
  destruct (decide (n ∈ node <$> boxesRef s)) as [Hm | Hm].
  - destruct (present_split _ _ Hm) as (l1 & old & l2 & Hs & Hold & Hl1).
    unfold exec. rewrite (registerBox_present _ _ _ _ _ _ _ _ Hs Hold Hl1). cbn.
    rewrite fmap_app, fmap_cons. apply elem_of_app. right. left.
  - unfold exec. rewrite (registerBox_absent _ _ _ _ _ Hm). cbn.
    rewrite fmap_app. apply elem_of_app. right. left.
Qed.

(** C3. [registerBox] is an upsert keyed by node identity.  A node that is
    not registered is appended and the call returns [true].  A node that
    is registered has its first (and, for a duplicate-free registry, only)
    record replaced at the same index and the call returns [false]; the
    number of records and the order of the nodes are unchanged.  Once a
    node has been registered, every later [registerBox] of that node
    returns [false] and keeps the number of records, whatever other
    context calls happen in between, as long as the node is not
    unregistered. *)
Theorem registerBox_upsert (n : YogaNode) (g : Group) (fp : R3FlexProps)
    (ca : bool) (s : FlexState) :
  let item := mkBox n g fp ca in
  let s' := exec (registerBox n g fp ca) s in
  (n ∉ node <$> boxesRef s ->
     result (registerBox n g fp ca) s = true /\
     boxesRef s' = boxesRef s ++ [item]) /\
  (n ∈ node <$> boxesRef s ->
     result (registerBox n g fp ca) s = false /\
     length (boxesRef s') = length (boxesRef s) /\
     node <$> boxesRef s' = node <$> boxesRef s /\
     exists (i : nat) (old : BoxesItem),
       boxesRef s !! i = Some old /\ node old = n /\
       (forall (j : nat) (b : BoxesItem),
          (j < i)%nat -> boxesRef s !! j = Some b -> node b ≠ n) /\
       boxesRef s' = <[i := item]> (boxesRef s)) /\
  (forall (cs : list ContextCall) (g' : Group) (fp' : R3FlexProps) (ca' : bool),
     CallUnregisterBox n ∉ cs ->
     let s1 := exec (runCalls cs) s' in
     result (registerBox n g' fp' ca') s1 = false /\
     length (boxesRef (exec (registerBox n g' fp' ca') s1)) = length (boxesRef s1)).
Proof.
  intros item s'. split; [|split].
  - intros Hn. subst s'. unfold result, exec.
    rewrite (registerBox_absent _ _ _ _ _ Hn). split; reflexivity.
  - intros Hin. destruct (present_split _ _ Hin) as (l1 & old & l2 & Hs & Hold & Hl1).
    subst s'. unfold result, exec.
    rewrite (registerBox_present _ _ _ _ _ _ _ _ Hs Hold Hl1). cbn.
    rewrite Hs. split; [reflexivity|]. split; [|split].
    + rewrite !length_app. reflexivity.
    + rewrite !fmap_app, !fmap_cons. cbn. rewrite Hold. reflexivity.
    + exists (length l1), old. split; [|split; [exact Hold|split]].
      * rewrite lookup_app_r by lia. rewrite Nat.sub_diag. reflexivity.
      * intros j b Hj Hb. rewrite lookup_app_l in Hb by exact Hj.
        intros <-. apply Hl1. apply list_elem_of_fmap. exists b. split; [reflexivity|].
        apply list_elem_of_lookup. eauto.
      * replace (length l1) with (length l1 + 0)%nat by lia.
        rewrite insert_app_r. reflexivity.
  - intros cs g' fp' ca' Hcs s1.
    assert (n ∈ node <$> boxesRef s1) as Hin.
    { apply registered_runCalls; [apply registered_after_registerBox | exact Hcs]. }
    destruct (present_split _ _ Hin) as (l1 & old & l2 & Hs & Hold & Hl1).
    unfold result, exec.
    rewrite (registerBox_present _ _ _ _ _ _ _ _ Hs Hold Hl1). cbn.
    rewrite Hs, !length_app. split; reflexivity.
Qed.

(** C9. [unregisterBox] removes the first record of a registered node,
    keeping all other records in their order and touching nothing else;
    in a duplicate-free registry the node is then gone.  For a node that is
    not registered it changes nothing and makes no call.  Being a total
    function of the state, it never fails. *)
Theorem unregisterBox_removes_or_noop (n : YogaNode) (s : FlexState) :
  (n ∈ node <$> boxesRef s ->
     exists (l1 : list BoxesItem) (old : BoxesItem) (l2 : list BoxesItem),
       boxesRef s = l1 ++ old :: l2 /\ node old = n /\ (n ∉ node <$> l1) /\
       unregisterBox n s = (tt, set_boxesRef (l1 ++ l2) s, []) /\
       (NoDup (node <$> boxesRef s) ->
        n ∉ node <$> boxesRef (exec (unregisterBox n) s))) /\
  (n ∉ node <$> boxesRef s -> unregisterBox n s = (tt, s, [])).
Proof.
  split.
  - intros Hin. destruct (present_split _ _ Hin) as (l1 & old & l2 & Hs & Hold & Hl1).
    exists l1, old, l2. repeat split; try assumption.
    + apply (unregisterBox_present _ _ _ _ _ Hs Hold Hl1).
    + intros Hnd. unfold exec.
      rewrite (unregisterBox_present _ _ _ _ _ Hs Hold Hl1). cbn.
      rewrite Hs, fmap_app, fmap_cons, Hold in Hnd.
      apply NoDup_app in Hnd as (_ & Hdisj & Hnd2).
      apply NoDup_cons in Hnd2 as [Hn2 _].
      rewrite fmap_app. intros Hx. apply elem_of_app in Hx as [Hx | Hx]; contradiction.
  - apply unregisterBox_absent.
Qed.

(** ** Context calls *)

(** The two outcomes of [registerBox] and of [unregisterBox], by cases on
    whether the node is registered. *)
Lemma registerBox_cases n g fp ca s :
  ((n ∉ node <$> boxesRef s) /\
   registerBox n g fp ca s =
     (true, set_boxesRef (boxesRef s ++ [mkBox n g fp ca]) s, [])) \/
  (exists l1 old l2,
     boxesRef s = l1 ++ old :: l2 /\ node old = n /\ (n ∉ node <$> l1) /\
     registerBox n g fp ca s =
       (false, set_boxesRef (l1 ++ mkBox n g fp ca :: l2) s, [])).
Proof.
  destruct (decide (n ∈ node <$> boxesRef s)) as [Hin | Hout].
  - right. destruct (present_split _ _ Hin) as (l1 & old & l2 & Hs & Hold & Hl1).
    exists l1, old, l2. repeat split; try assumption.
    apply (registerBox_present _ _ _ _ _ _ _ _ Hs Hold Hl1).
  - left. split; [exact Hout | apply registerBox_absent, Hout].
Qed.

Lemma unregisterBox_cases n s :
  ((n ∉ node <$> boxesRef s) /\ unregisterBox n s = (tt, s, [])) \/
  (exists l1 old l2,
     boxesRef s = l1 ++ old :: l2 /\ node old = n /\ (n ∉ node <$> l1) /\
     unregisterBox n s = (tt, set_boxesRef (l1 ++ l2) s, [])).
Proof.
  destruct (decide (n ∈ node <$> boxesRef s)) as [Hin | Hout].
  - right. destruct (present_split _ _ Hin) as (l1 & old & l2 & Hs & Hold & Hl1).
    exists l1, old, l2. repeat split; try assumption.
    apply (unregisterBox_present _ _ _ _ _ Hs Hold Hl1).
  - left. split; [exact Hout | apply unregisterBox_absent, Hout].
Qed.

Lemma runCall_registry (c : ContextCall) (s : FlexState) :
  isRequestReflow c = false ->
  exists l, runCall c s = (tt, set_boxesRef l s, []).
Proof.
  destruct c as [|n g fp ca|n]; cbn [isRequestReflow runCall]; [discriminate| |]; intros _.
  - destruct (registerBox_cases n g fp ca s)
      as [[_ Hrun] | (l1 & old & l2 & _ & _ & _ & Hrun)];
      eexists; rewrite run_bind; unfold result, exec, events; rewrite Hrun; reflexivity.
  - destruct (unregisterBox_cases n s)
      as [[_ Hrun] | (l1 & old & l2 & _ & _ & _ & Hrun)].
    + exists (boxesRef s). rewrite Hrun. destruct s. reflexivity.
    + eexists. exact Hrun.
Qed.

Lemma events_runCall (c : ContextCall) (s : FlexState) :
  events (runCall c) s = if isRequestReflow c then [EvInvalidate] else [].
Proof.
  destruct (isRequestReflow c) eqn:Hc.
  - destruct c; try discriminate. reflexivity.
  - destruct (runCall_registry c s Hc) as [l Hrun]. unfold events. rewrite Hrun.
    reflexivity.
Qed.

(** The calls a sequence of context calls makes: one [invalidate] per
    [requestReflow]. *)
Lemma events_runCalls (cs : list ContextCall) (s : FlexState) :
  events (runCalls cs) s =
  replicate (length (filter (fun c => isRequestReflow c = true) cs)) EvInvalidate.
Proof.
  revert s. induction cs as [|c cs IH]; intros s; [reflexivity|].
  unfold runCalls. cbn [forEach]. rewrite events_bind. fold (runCalls cs).
  rewrite IH, events_runCall.
  destruct (isRequestReflow c) eqn:Hc.
  - rewrite filter_cons_True by exact Hc. reflexivity.
  - rewrite filter_cons_False by congruence. reflexivity.
Qed.

Lemma events_runCalls_all (P : Event -> bool) (v : bool) (cs : list ContextCall)
    (s : FlexState) :
  P EvInvalidate = v -> Forall (fun e => P e = v) (events (runCalls cs) s).
Proof.
  intros HP. rewrite events_runCalls. apply Forall_forall.
  intros e He. apply elem_of_replicate in He as [-> _]. exact HP.
Qed.

(** Requests change nothing but the dirty flag. *)
Lemma runCalls_requests_only (cs : list ContextCall) (s : FlexState) :
  Forall (fun c => isRequestReflow c = true) cs ->
  exec (runCalls cs) s = set_dirtyRef (dirtyRef (exec (runCalls cs) s)) s.
Proof.
  intros Hcs. revert s. induction Hcs as [|c cs Hc _ IH]; intros s.
  - destruct s. reflexivity.
  - destruct c; try discriminate.
    unfold runCalls. cbn [forEach]. rewrite exec_bind. fold (runCalls cs).
    change (exec (runCall CallRequestReflow) s) with (set_dirtyRef true s).
    rewrite (IH (set_dirtyRef true s)) at 1. reflexivity.
Qed.


(** ** Size inference: one box *)

Lemma scaleValue_Some sf v : scaleValue sf (Some v) = Some (scaleDim sf v).
Proof. destruct v; reflexivity. Qed.

Lemma scaleValue_None sf o : scaleValue sf o = None <-> o = None.
Proof. destruct o as [[q|str]|]; cbn; split; congruence. Qed.

Section SizeInference.
Context `{External}.
Variable props : FlexProps.

Let sf := scaleFactor props.

Lemma recalcSize_forced (b : BoxesItem) (s : FlexState) (w h : YogaValue) :
  width (flexProps b) = Some w -> height (flexProps b) = Some h ->
  recalcSize props b s =
  (tt,
   set_yoga (yoga_setHeight (node b) (scaleDim sf h)
               (yoga_setWidth (node b) (scaleDim sf w) (yoga s))) s,
   [EvSetWidth (node b) (scaleDim sf w); EvSetHeight (node b) (scaleDim sf h)]).
Proof.
  intros Hw Hh. unfold recalcSize. rewrite Hw, Hh, !scaleValue_Some.
  reflexivity.
Qed.

Lemma recalcSize_derived (b : BoxesItem) (s : FlexState) :
  width (flexProps b) = None \/ height (flexProps b) = None ->
  yoga_getChildCount (node b) (yoga s) ≠ 0%nat ->
  recalcSize props b s = (tt, s, []).
Proof.
  intros Hmiss Hcount. unfold recalcSize.
  assert (forall k : M unit,
    (count ← gets (fun s => yoga_getChildCount (node b) (yoga s));
     if (count =? 0)%nat then k else ret tt) s = (tt, s, [])) as Hskip.
  { intros k. run. apply Nat.eqb_neq in Hcount. rewrite Hcount. reflexivity. }
  destruct Hmiss as [Hm | Hm]; rewrite Hm; cbn [scaleValue].
  - apply Hskip.
  - destruct (scaleValue (scaleFactor props) (width (flexProps b))); apply Hskip.
Qed.

Lemma recalcSize_measured (b : BoxesItem) (s : FlexState) :
  width (flexProps b) = None \/ height (flexProps b) = None ->
  yoga_getChildCount (node b) (yoga s) = 0%nat ->
  let vec := measuredExtent s (group b) in
  let w' := orElse (scaleValue sf (width (flexProps b)))
              (YNum (Vector3.get (mainAxis (plane props)) vec * sf)) in
  let h' := orElse (scaleValue sf (height (flexProps b)))
              (YNum (Vector3.get (crossAxis (plane props)) vec * sf)) in
  recalcSize props b s =
  (tt,
   set_yoga (yoga_setHeight (node b) h' (yoga_setWidth (node b) w' (yoga s))) s,
   [measurementCall s (group b); EvSetWidth (node b) w'; EvSetHeight (node b) h']).
Proof.
  intros Hmiss Hcount vec w' h'. subst vec w' h' sf.
  unfold recalcSize, measuredExtent, measurementCall.
  assert (scaleValue (scaleFactor props) (width (flexProps b)) = None \/
          scaleValue (scaleFactor props) (height (flexProps b)) = None) as Hsc.
  { destruct Hmiss as [Hm | Hm]; rewrite Hm; auto. }
  destruct (scaleValue (scaleFactor props) (width (flexProps b))) as [sw|] eqn:Hsw;
    destruct (scaleValue (scaleFactor props) (height (flexProps b))) as [sh|] eqn:Hsh;
    try (destruct Hsc; discriminate);
    unfold measureOBB, measureFromObject, node_setWidth, node_setHeight; run;
    rewrite Hcount; cbn; destruct (rootGroup s); reflexivity.
Qed.

(** The three cases are exhaustive: a box is forced, derived or
    measured. *)
Lemma recalcSize_cases (b : BoxesItem) (s : FlexState) :
  (exists w h, width (flexProps b) = Some w /\ height (flexProps b) = Some h) \/
  ((width (flexProps b) = None \/ height (flexProps b) = None) /\
   yoga_getChildCount (node b) (yoga s) ≠ 0%nat) \/
  ((width (flexProps b) = None \/ height (flexProps b) = None) /\
   yoga_getChildCount (node b) (yoga s) = 0%nat).
Proof.
  destruct (width (flexProps b)) as [w|], (height (flexProps b)) as [h|];
    eauto; destruct (decide (yoga_getChildCount (node b) (yoga s) = 0%nat)); auto.
Qed.

(** A step changes the node store only, and exactly by the
    [setWidth]/[setHeight] calls it logs. *)
Lemma recalcSize_writes (b : BoxesItem) (s : FlexState) :
  exec (recalcSize props b) s =
  set_yoga (applyWrites (events (recalcSize props b) s) (yoga s)) s.
Proof.
  destruct (recalcSize_cases b s) as [(w & h & Hw & Hh) | [[Hm Hc] | [Hm Hc]]].
  - unfold exec, events. rewrite (recalcSize_forced b s w h Hw Hh). reflexivity.
  - unfold exec, events. rewrite (recalcSize_derived b s Hm Hc).
    destruct s as [? ? ? [? ?] ?]. reflexivity.
  - unfold exec, events. rewrite (recalcSize_measured b s Hm Hc). cbn.
    unfold measurementCall. destruct (rootGroup s); reflexivity.
Qed.
End SizeInference.

(** ** The node store under [setWidth] and [setHeight] *)

Lemma nodeStyle_setWidth_eq n v yg :
  nodeStyle (yoga_setWidth n v yg) n =
  mkStyle (Some v) (styleHeight (nodeStyle yg n)) (children (nodeStyle yg n)).
Proof. unfold nodeStyle, yoga_setWidth. cbn. rewrite lookup_insert_eq. reflexivity. Qed.

Lemma nodeStyle_setHeight_eq n v yg :
  nodeStyle (yoga_setHeight n v yg) n =
  mkStyle (styleWidth (nodeStyle yg n)) (Some v) (children (nodeStyle yg n)).
Proof. unfold nodeStyle, yoga_setHeight. cbn. rewrite lookup_insert_eq. reflexivity. Qed.

Lemma nodeStyle_setWidth_ne n m v yg :
  n ≠ m -> nodeStyle (yoga_setWidth n v yg) m = nodeStyle yg m.
Proof.
  intros Hne. unfold nodeStyle, yoga_setWidth. cbn.
  rewrite lookup_insert_ne by exact Hne. reflexivity.
Qed.

Lemma nodeStyle_setHeight_ne n m v yg :
  n ≠ m -> nodeStyle (yoga_setHeight n v yg) m = nodeStyle yg m.
Proof.
  intros Hne. unfold nodeStyle, yoga_setHeight. cbn.
  rewrite lookup_insert_ne by exact Hne. reflexivity.
Qed.

Lemma children_applyWrite yg e m :
  children (nodeStyle (applyWrite yg e) m) = children (nodeStyle yg m).
Proof.
  destruct e as [| |n v|n v| | | |]; cbn [applyWrite]; try reflexivity;
    destruct (decide (n = m)) as [->|Hne];
    rewrite ?nodeStyle_setWidth_eq, ?nodeStyle_setHeight_eq,
      ?nodeStyle_setWidth_ne, ?nodeStyle_setHeight_ne by exact Hne; reflexivity.
Qed.

Lemma layouts_applyWrite yg e : layouts (applyWrite yg e) = layouts yg.
Proof. destruct e; reflexivity. Qed.

Lemma children_applyWrites evs yg m :
  children (nodeStyle (applyWrites evs yg) m) = children (nodeStyle yg m).
Proof.
  unfold applyWrites. revert yg. induction evs as [|e evs IH]; intros yg; [reflexivity|].
  cbn [fold_left]. rewrite IH. apply children_applyWrite.
Qed.

Lemma layouts_applyWrites evs yg : layouts (applyWrites evs yg) = layouts yg.
Proof.
  unfold applyWrites. revert yg. induction evs as [|e evs IH]; intros yg; [reflexivity|].
  cbn [fold_left]. rewrite IH. apply layouts_applyWrite.
Qed.

Lemma applyWrites_app e1 e2 yg :
  applyWrites (e1 ++ e2) yg = applyWrites e2 (applyWrites e1 yg).
Proof. unfold applyWrites. apply fold_left_app. Qed.

(** ** Size inference: the whole pass *)

Lemma events_forEach_app {A} (l1 l2 : list A) (f : A -> M unit) s :
  events (forEach (l1 ++ l2) f) s =
  events (forEach l1 f) s ++ events (forEach l2 f) (exec (forEach l1 f) s).
Proof.
  revert s. induction l1 as [|a l1 IH]; intros s; [reflexivity|].
  cbn [forEach app]. rewrite !events_bind, !exec_bind, IH, app_assoc. reflexivity.
Qed.

Lemma events_forEach_cons {A} (a : A) (l : list A) (f : A -> M unit) s :
  events (forEach (a :: l) f) s = events (f a) s ++ events (forEach l f) (exec (f a) s).
Proof. cbn [forEach]. rewrite events_bind. reflexivity. Qed.

Lemma exec_forEach_cons {A} (a : A) (l : list A) (f : A -> M unit) s :
  exec (forEach (a :: l) f) s = exec (forEach l f) (exec (f a) s).
Proof. cbn [forEach]. rewrite exec_bind. reflexivity. Qed.

Lemma set_yoga_set_yoga y1 y2 s : set_yoga y2 (set_yoga y1 s) = set_yoga y2 s.
Proof. reflexivity. Qed.

Lemma set_yoga_id s : set_yoga (yoga s) s = s.
Proof. destruct s. reflexivity. Qed.

Section SizePass.
Context `{External}.
Variable props : FlexProps.

Let sf := scaleFactor props.

Lemma sizePass_writes (l : list BoxesItem) (s : FlexState) :
  exec (forEach l (recalcSize props)) s =
  set_yoga (applyWrites (events (forEach l (recalcSize props)) s) (yoga s)) s.
Proof.
  revert s. induction l as [|b l IH]; intros s.
  - cbn. symmetry. apply set_yoga_id.
  - rewrite exec_forEach_cons, events_forEach_cons, IH, applyWrites_app.
    set (rest := events (forEach l (recalcSize props)) _).
    rewrite (recalcSize_writes props b s). reflexivity.
Qed.

Lemma sizePass_frame (l : list BoxesItem) (s : FlexState) :
  let s' := exec (forEach l (recalcSize props)) s in
  boxesRef s' = boxesRef s /\ dirtyRef s' = dirtyRef s /\
  rootGroup s' = rootGroup s /\ scene s' = scene s /\
  layouts (yoga s') = layouts (yoga s) /\
  forall n, yoga_getChildCount n (yoga s') = yoga_getChildCount n (yoga s).
Proof.
  intros s'. subst s'. rewrite sizePass_writes. cbn.
  repeat split; try reflexivity.
  - apply layouts_applyWrites.
  - intros n. unfold yoga_getChildCount. rewrite children_applyWrites. reflexivity.
Qed.

Lemma measuredExtent_sizePass (l : list BoxesItem) (s : FlexState) (g : Group) :
  measuredExtent (exec (forEach l (recalcSize props)) s) g = measuredExtent s g.
Proof.
  unfold measuredExtent.
  destruct (sizePass_frame l s) as (_ & _ & -> & -> & _). reflexivity.
Qed.

Lemma measurementCall_sizePass (l : list BoxesItem) (s : FlexState) (g : Group) :
  measurementCall (exec (forEach l (recalcSize props)) s) g = measurementCall s g.
Proof.
  unfold measurementCall.
  destruct (sizePass_frame l s) as (_ & _ & -> & _). reflexivity.
Qed.

(** A step writes only to the node of its own box. *)
Lemma recalcSize_other (b : BoxesItem) (s : FlexState) (m : YogaNode) :
  node b ≠ m ->
  nodeStyle (yoga (exec (recalcSize props b) s)) m = nodeStyle (yoga s) m.
Proof.
  intros Hne.
  destruct (recalcSize_cases b s) as [(w & h & Hw & Hh) | [[Hm Hc] | [Hm Hc]]];
    unfold exec.
  - rewrite (recalcSize_forced props b s w h Hw Hh). cbn.
    rewrite nodeStyle_setHeight_ne, nodeStyle_setWidth_ne by exact Hne. reflexivity.
  - rewrite (recalcSize_derived props b s Hm Hc). reflexivity.
  - rewrite (recalcSize_measured props b s Hm Hc). cbn.
    rewrite nodeStyle_setHeight_ne, nodeStyle_setWidth_ne by exact Hne. reflexivity.
Qed.

Lemma sizePass_other (l : list BoxesItem) (s : FlexState) (m : YogaNode) :
  m ∉ node <$> l ->
  nodeStyle (yoga (exec (forEach l (recalcSize props)) s)) m = nodeStyle (yoga s) m.
Proof.
  revert s. induction l as [|b l IH]; intros s Hm; [reflexivity|].
  rewrite exec_forEach_cons, IH, recalcSize_other.
  - reflexivity.
  - intros Heq. apply Hm. rewrite fmap_cons, Heq. left.
  - intros Hin. apply Hm. rewrite fmap_cons. right. exact Hin.
Qed.

Lemma recalcSizes_enabled (s : FlexState) :
  disableSizeRecalc props = false ->
  recalcSizes props s = forEach (boxesRef s) (recalcSize props) s.
Proof.
  intros Hd. unfold recalcSizes. rewrite Hd. cbn [negb]. run.
  destruct (forEach (boxesRef s) (recalcSize props) s) as [[[] s'] e]. reflexivity.
Qed.

Lemma recalcSizes_disabled (s : FlexState) :
  disableSizeRecalc props = true -> recalcSizes props s = (tt, s, []).
Proof. intros Hd. unfold recalcSizes. rewrite Hd. reflexivity. Qed.
End SizePass.

Lemma orElse_zero (sf q : Q) (d : YogaValue) :
  q == 0 -> orElse (scaleValue sf (Some (YNum q))) d = d.
Proof.
  intros Hq. cbn. replace (Qeq_bool (q * sf) 0) with true; [reflexivity|].
  symmetry. apply Qeq_bool_iff. rewrite Hq. ring.
Qed.

Section SizeInferenceProperties.
Context `{External}.
Variable props : FlexProps.

Let sf := scaleFactor props.

(** C4. A box whose [flexProps] hold both a width and a height: the
    calls that the size pass makes for it are exactly [setWidth] and
    [setHeight] with the two values (a number multiplied by the scale
    factor, anything else as it is), so no measurement is made for it;
    its node then carries these two values, and still does at the end of
    the pass when no later record has the same node. *)
Theorem explicit_size_written_verbatim
    (s : FlexState) (l1 l2 : list BoxesItem) (b : BoxesItem) (w h : YogaValue) :
  disableSizeRecalc props = false ->
  boxesRef s = l1 ++ b :: l2 ->
  width (flexProps b) = Some w -> height (flexProps b) = Some h ->
  let s1 := exec (forEach l1 (recalcSize props)) s in
  let s2 := exec (recalcSize props b) s1 in
  let calls := [EvSetWidth (node b) (scaleDim sf w);
                EvSetHeight (node b) (scaleDim sf h)] in
  events (recalcSize props b) s1 = calls /\
  events (recalcSizes props) s =
    events (forEach l1 (recalcSize props)) s ++ calls ++
    events (forEach l2 (recalcSize props)) s2 /\
  filter (fun e => isMeasurement e = true) calls = [] /\
  styleWidth (nodeStyle (yoga s2) (node b)) = Some (scaleDim sf w) /\
  styleHeight (nodeStyle (yoga s2) (node b)) = Some (scaleDim sf h) /\
  (node b ∉ node <$> l2 ->
   let s' := exec (recalcSizes props) s in
   styleWidth (nodeStyle (yoga s') (node b)) = Some (scaleDim sf w) /\
   styleHeight (nodeStyle (yoga s') (node b)) = Some (scaleDim sf h)).
Proof.
  intros Hd Hs Hw Hh s1 s2 calls.
  assert (recalcSize props b s1 =
          (tt, set_yoga (yoga_setHeight (node b) (scaleDim sf h)
                 (yoga_setWidth (node b) (scaleDim sf w) (yoga s1))) s1, calls))
    as Hstep by apply (recalcSize_forced props b s1 w h Hw Hh).
  assert (styleWidth (nodeStyle (yoga s2) (node b)) = Some (scaleDim sf w) /\
          styleHeight (nodeStyle (yoga s2) (node b)) = Some (scaleDim sf h)) as [Hsw Hsh].
  { subst s2. unfold exec. rewrite Hstep. cbn.
    rewrite nodeStyle_setHeight_eq, nodeStyle_setWidth_eq. split; reflexivity. }
  assert (events (recalcSize props b) s1 = calls) as Hev.
  { unfold events. rewrite Hstep. reflexivity. }
  split; [exact Hev|]. split; [|split; [reflexivity|split; [exact Hsw|split; [exact Hsh|]]]].
  - unfold events at 1. rewrite (recalcSizes_enabled props s Hd), Hs.
    fold (events (forEach (l1 ++ b :: l2) (recalcSize props)) s).
    rewrite events_forEach_app, events_forEach_cons. fold s1. rewrite Hev. reflexivity.
  - intros Hl2 s'. subst s'.
    assert (exec (recalcSizes props) s =
            exec (forEach (l1 ++ b :: l2) (recalcSize props)) s) as ->.
    { unfold exec. rewrite (recalcSizes_enabled props s Hd), Hs. reflexivity. }
    rewrite exec_forEach_app, exec_forEach_cons. fold s1. fold s2.
    rewrite (sizePass_other props l2 s2 (node b) Hl2). split; assumption.
Qed.

(** C8. A box that lacks a width or a height and whose node has
    children: its step of the size pass makes no call at all (no
    measurement, no [setWidth], no [setHeight]) and leaves the whole
    state, hence the node, as it was. *)
Theorem parent_box_left_to_solver
    (s : FlexState) (l1 l2 : list BoxesItem) (b : BoxesItem) :
  disableSizeRecalc props = false ->
  boxesRef s = l1 ++ b :: l2 ->
  width (flexProps b) = None \/ height (flexProps b) = None ->
  yoga_getChildCount (node b) (yoga s) ≠ 0%nat ->
  let s1 := exec (forEach l1 (recalcSize props)) s in
  recalcSize props b s1 = (tt, s1, []) /\
  events (recalcSizes props) s =
    events (forEach l1 (recalcSize props)) s ++
    events (forEach l2 (recalcSize props)) s1.
Proof.
  intros Hd Hs Hmiss Hcount s1.
  assert (recalcSize props b s1 = (tt, s1, [])) as Hstep.
  { apply recalcSize_derived; [exact Hmiss|]. subst s1.
    destruct (sizePass_frame props l1 s) as (_ & _ & _ & _ & _ & Hc).
    rewrite Hc. exact Hcount. }
  split; [exact Hstep|].
  unfold events at 1. rewrite (recalcSizes_enabled props s Hd), Hs.
  fold (events (forEach (l1 ++ b :: l2) (recalcSize props)) s).
  rewrite events_forEach_app, events_forEach_cons. fold s1.
  unfold events at 2, exec at 1. rewrite Hstep. reflexivity.
Qed.

(** C10. In the measurement branch (a leaf node, the other dimension
    absent) a numeric width of zero is not written: the box is measured
    and the node's width becomes the measured extent along the main axis
    times the scale factor.  These are the calls the size pass makes for
    the box, between those for the boxes before and after it, and the node
    still carries the measured width at the end of the pass when no later
    record has the same node.  The same holds for a numeric height of zero
    and the cross axis. *)
Theorem zero_size_is_measured
    (s : FlexState) (l1 l2 : list BoxesItem) (b : BoxesItem) (q : Q) :
  disableSizeRecalc props = false ->
  boxesRef s = l1 ++ b :: l2 ->
  yoga_getChildCount (node b) (yoga s) = 0%nat ->
  q == 0 ->
  let s1 := exec (forEach l1 (recalcSize props)) s in
  let s2 := exec (recalcSize props b) s1 in
  let s' := exec (recalcSizes props) s in
  let vec := measuredExtent s (group b) in
  let measuredWidth := YNum (Vector3.get (mainAxis (plane props)) vec * sf) in
  let measuredHeight := YNum (Vector3.get (crossAxis (plane props)) vec * sf) in
  let calls := [measurementCall s (group b); EvSetWidth (node b) measuredWidth;
                EvSetHeight (node b) measuredHeight] in
  (width (flexProps b) = Some (YNum q) -> height (flexProps b) = None ->
     events (recalcSize props b) s1 = calls /\
     styleWidth (nodeStyle (yoga s2) (node b)) = Some measuredWidth /\
     events (recalcSizes props) s =
       events (forEach l1 (recalcSize props)) s ++ calls ++
       events (forEach l2 (recalcSize props)) s2 /\
     (node b ∉ node <$> l2 ->
      styleWidth (nodeStyle (yoga s') (node b)) = Some measuredWidth)) /\
  (height (flexProps b) = Some (YNum q) -> width (flexProps b) = None ->
     events (recalcSize props b) s1 = calls /\
     styleHeight (nodeStyle (yoga s2) (node b)) = Some measuredHeight /\
     events (recalcSizes props) s =
       events (forEach l1 (recalcSize props)) s ++ calls ++
       events (forEach l2 (recalcSize props)) s2 /\
     (node b ∉ node <$> l2 ->
      styleHeight (nodeStyle (yoga s') (node b)) = Some measuredHeight)).
Proof.
  intros Hd Hs Hcount Hq s1 s2 s' vec mw mh calls.
  assert (yoga_getChildCount (node b) (yoga s1) = 0%nat) as Hc1.
  { subst s1. destruct (sizePass_frame props l1 s) as (_ & _ & _ & _ & _ & Hc).
    rewrite Hc. exact Hcount. }
  assert (measuredExtent s1 (group b) = vec) as Hvec
    by apply measuredExtent_sizePass.
  assert (measurementCall s1 (group b) = measurementCall s (group b)) as Hcall
    by apply measurementCall_sizePass.
  assert (events (recalcSizes props) s =
          events (forEach l1 (recalcSize props)) s ++
          events (recalcSize props b) s1 ++
          events (forEach l2 (recalcSize props)) s2) as Hpass.
  { unfold events at 1. rewrite (recalcSizes_enabled props s Hd), Hs.
    fold (events (forEach (l1 ++ b :: l2) (recalcSize props)) s).
    rewrite events_forEach_app, events_forEach_cons. reflexivity. }
  assert (node b ∉ node <$> l2 ->
          nodeStyle (yoga s') (node b) = nodeStyle (yoga s2) (node b)) as Hend.
  { intros Hl2. subst s'.
    assert (exec (recalcSizes props) s =
            exec (forEach (l1 ++ b :: l2) (recalcSize props)) s) as ->.
    { unfold exec. rewrite (recalcSizes_enabled props s Hd), Hs. reflexivity. }
    rewrite exec_forEach_app, exec_forEach_cons. fold s1. fold s2.
    apply (sizePass_other props l2 s2 (node b) Hl2). }
  split; intros Hone Hother.
  - pose proof (recalcSize_measured props b s1 (or_intror Hother) Hc1) as Hstep.
    cbn zeta in Hstep. rewrite Hone, Hother, Hvec, Hcall in Hstep.
    rewrite (orElse_zero _ _ _ Hq) in Hstep. cbn [scaleValue orElse] in Hstep.
    assert (events (recalcSize props b) s1 = calls) as Hev
      by (unfold events; rewrite Hstep; reflexivity).
    assert (styleWidth (nodeStyle (yoga s2) (node b)) = Some mw) as Hsw.
    { subst s2. unfold exec. rewrite Hstep. cbn.
      rewrite nodeStyle_setHeight_eq, nodeStyle_setWidth_eq. reflexivity. }
    split; [exact Hev|]. split; [exact Hsw|]. split.
    + rewrite Hpass, Hev. reflexivity.
    + intros Hl2. rewrite (Hend Hl2). exact Hsw.
  - pose proof (recalcSize_measured props b s1 (or_introl Hother) Hc1) as Hstep.
    cbn zeta in Hstep. rewrite Hone, Hother, Hvec, Hcall in Hstep.
    rewrite (orElse_zero _ _ _ Hq) in Hstep. cbn [scaleValue orElse] in Hstep.
    assert (events (recalcSize props b) s1 = calls) as Hev
      by (unfold events; rewrite Hstep; reflexivity).
    assert (styleHeight (nodeStyle (yoga s2) (node b)) = Some mh) as Hsh.
    { subst s2. unfold exec. rewrite Hstep. cbn.
      rewrite nodeStyle_setHeight_eq. reflexivity. }
    split; [exact Hev|]. split; [exact Hsh|]. split.
    + rewrite Hpass, Hev. reflexivity.
    + intros Hl2. rewrite (Hend Hl2). exact Hsh.
Qed.
End SizeInferenceProperties.

(** ** Layout and repositioning *)

Section Reposition.
Context `{External}.
Variable props : FlexProps.
Variable rootNode : YogaNode.

Lemma performLayout_run (s : FlexState) :
  performLayout props rootNode s =
  (tt,
   set_yoga
     (mkYoga (styles (yoga s))
        (solveLayout (styles (yoga s)) rootNode
           (Vector3.get (mainAxis (plane props)) (containerSize props) * scaleFactor props)
           (Vector3.get (crossAxis (plane props)) (containerSize props) * scaleFactor props)
           (yogaDirection_ (yogaDirection props)))) s,
   [EvCalculateLayout rootNode
      (Vector3.get (mainAxis (plane props)) (containerSize props) * scaleFactor props)
      (Vector3.get (crossAxis (plane props)) (containerSize props) * scaleFactor props)
      (yogaDirection_ (yogaDirection props))]).
Proof. reflexivity. Qed.

(** The second loop: positions are copied in registration order, the
    scene receives them, the bounds are widened, nothing else moves. *)
Lemma reposition_loop (rw rh : Q) (l : list BoxesItem) (acc : Bounds) (t : FlexState) :
  let pos := fun b =>
    boxPosition props
      (getRootShift (yoga t) (rootCenterAnchor props) rw rh (node b))
      (layouts (yoga t) (node b)) (centerAnchor b) in
  forEachWith l (reposition props rw rh) acc t =
  (boundsFrom acc ((fun b => layouts (yoga t) (node b)) <$> l),
   set_scene (fold_left (fun sc b => <[group b := pos b]> sc) l (scene t)) t,
   (fun b => EvPositionCopy (group b) (pos b)) <$> l).
Proof.
  intros pos. revert acc t pos. induction l as [|b l IH]; intros acc t pos.
  - cbn. destruct acc, t. reflexivity.
  - cbn [forEachWith]. rewrite run_bind.
    assert (reposition props rw rh b acc t =
      (mkBounds (Qmin (minX acc) (Layout.left (layouts (yoga t) (node b))))
         (Qmax (maxX acc) (Layout.left (layouts (yoga t) (node b))
                           + Layout.width (layouts (yoga t) (node b))))
         (Qmin (minY acc) (Layout.top (layouts (yoga t) (node b))))
         (Qmax (maxY acc) (Layout.top (layouts (yoga t) (node b))
                           + Layout.height (layouts (yoga t) (node b)))),
       set_scene (<[group b := pos b]> (scene t)) t,
       [EvPositionCopy (group b) (pos b)])) as Hstep by reflexivity.
    unfold result, exec, events. rewrite Hstep. cbn [fst snd].
    rewrite IH. cbn. reflexivity.
Qed.
End Reposition.

(** ** The shape of a whole reflow *)

Lemma run_eta {A} (m : M A) (s : FlexState) :
  m s = (result m s, exec m s, events m s).
Proof. unfold result, exec, events. destruct (m s) as [[a t] e]. reflexivity. Qed.

Lemma exec_gets {A} (f : FlexState -> A) s : exec (gets f) s = s.
Proof. reflexivity. Qed.

Lemma result_gets {A} (f : FlexState -> A) s : result (gets f) s = f s.
Proof. reflexivity. Qed.

Lemma events_gets {A} (f : FlexState -> A) s : events (gets f) s = [].
Proof. reflexivity. Qed.

Section ReflowShape.
Context `{External}.
Variable props : FlexProps.
Variable rootNode : YogaNode.

Lemma recalcSizes_writes (s : FlexState) :
  exec (recalcSizes props) s =
  set_yoga (applyWrites (events (recalcSizes props) s) (yoga s)) s.
Proof.
  destruct (disableSizeRecalc props) eqn:Hd.
  - unfold exec, events. rewrite (recalcSizes_disabled props s Hd). cbn.
    symmetry. apply set_yoga_id.
  - unfold exec, events. rewrite (recalcSizes_enabled props s Hd).
    apply sizePass_writes.
Qed.

Lemma laidOut_eq (s : FlexState) :
  laidOut props rootNode s =
  exec (performLayout props rootNode) (exec (recalcSizes props) s).
Proof. unfold laidOut. rewrite exec_bind. reflexivity. Qed.

Lemma laidOut_frame (s : FlexState) :
  let s1 := laidOut props rootNode s in
  boxesRef s1 = boxesRef s /\ dirtyRef s1 = dirtyRef s /\
  rootGroup s1 = rootGroup s /\ scene s1 = scene s /\
  styles (yoga s1) = styles (yoga (exec (recalcSizes props) s)).
Proof.
  intros s1. subst s1. rewrite laidOut_eq.
  set (s0 := exec (recalcSizes props) s).
  assert (boxesRef s0 = boxesRef s /\ dirtyRef s0 = dirtyRef s /\
          rootGroup s0 = rootGroup s /\ scene s0 = scene s) as (Hb & Hd & Hr & Hsc).
  { subst s0. rewrite recalcSizes_writes. repeat split; reflexivity. }
  rewrite <- Hb, <- Hd, <- Hr, <- Hsc. repeat split; reflexivity.
Qed.

Lemma notifyReflow_run (bounds : Bounds) (t : FlexState) :
  let tw := (maxX bounds - minX bounds) / scaleFactor props in
  let th := (maxY bounds - minY bounds) / scaleFactor props in
  let cs := match onReflow props with Some listener => listener tw th | None => [] end in
  notifyReflow props bounds t =
  (tt, exec (runCalls cs) t,
   match onReflow props with Some _ => [EvOnReflow tw th] | None => [] end ++
   events (runCalls cs) t).
Proof.
  intros tw th cs. subst tw th cs. unfold notifyReflow.
  destruct (onReflow props) as [listener|]; [|reflexivity].
  rewrite run_bind.
  change (exec (emit (EvOnReflow ((maxX bounds - minX bounds) / scaleFactor props)
                                 ((maxY bounds - minY bounds) / scaleFactor props))) t)
    with t.
  set (cs := listener _ _).
  destruct (result (runCalls cs) t). reflexivity.
Qed.

Lemma reflow_run (s : FlexState) :
  reflow props rootNode s =
  (tt, afterListener props rootNode s,
   events (recalcSizes props) s ++ [layoutCall props rootNode] ++
   positionCalls props rootNode s ++ reflowNotification props rootNode s ++
   listenerEvents props rootNode s ++ [EvInvalidate]).
Proof.
  rewrite (run_eta (reflow props rootNode) s).
  f_equal; [f_equal; [destruct (result _ _); reflexivity|]|].
  - unfold reflow. rewrite !exec_bind. cbn beta.
    rewrite !exec_gets, !result_gets, <- laidOut_eq.
    destruct (laidOut_frame s) as (Hb & _). rewrite Hb.
    unfold exec at 2, result at 1. rewrite reposition_loop. cbn [fst snd].
    unfold exec at 2. rewrite reposition_loop. cbn [fst snd].
    fold (boxLayouts props rootNode s).
    rewrite notifyReflow_run. cbn [fst snd].
    unfold afterListener, listenerCalls, repositioned, reflowTotals, positionOf.
    reflexivity.
  - unfold reflow. rewrite !events_bind. cbn beta.
    rewrite ?exec_bind. cbn beta.
    rewrite ?exec_gets, ?result_gets, ?events_gets, <- ?laidOut_eq.
    destruct (laidOut_frame s) as (Hb & _). rewrite ?Hb.
    set (loop := forEachWith (boxesRef s) _ _).
    pose proof (reposition_loop props
      (Layout.width (layouts (yoga (laidOut props rootNode s)) rootNode))
      (Layout.height (layouts (yoga (laidOut props rootNode s)) rootNode))
      (boxesRef s) (mkBounds 0 0 0 0) (laidOut props rootNode s)) as Hloop.
    cbn zeta in Hloop. fold loop in Hloop.
    unfold result, exec at 2 3 4, events at 3 4. rewrite Hloop. cbn [fst snd].
    fold (boxLayouts props rootNode s).
    rewrite !notifyReflow_run. cbn [fst snd].
    unfold reflowNotification, listenerEvents, listenerCalls, repositioned,
      reflowTotals, positionCalls, positionOf.
    rewrite <- !app_assoc. reflexivity.
Qed.
End ReflowShape.

(** ** What the log of a reflow contains *)

Section ReflowLog.
Context `{External}.
Variable props : FlexProps.
Variable rootNode : YogaNode.

Lemma recalcSize_sizing (b : BoxesItem) (s : FlexState) :
  Forall (fun e => isSizing e = true) (events (recalcSize props b) s).
Proof.
  destruct (recalcSize_cases b s) as [(w & h & Hw & Hh) | [[Hm Hc] | [Hm Hc]]];
    unfold events.
  - rewrite (recalcSize_forced props b s w h Hw Hh). cbn. repeat constructor.
  - rewrite (recalcSize_derived props b s Hm Hc). constructor.
  - rewrite (recalcSize_measured props b s Hm Hc). cbn.
    unfold measurementCall. destruct (rootGroup s); repeat constructor.
Qed.

Lemma recalcSizes_sizing (s : FlexState) :
  Forall (fun e => isSizing e = true) (events (recalcSizes props) s).
Proof.
  destruct (disableSizeRecalc props) eqn:Hd; unfold events.
  - rewrite (recalcSizes_disabled props s Hd). constructor.
  - rewrite (recalcSizes_enabled props s Hd).
    fold (events (forEach (boxesRef s) (recalcSize props)) s).
    generalize (boxesRef s) as l. intros l. revert s.
    induction l as [|b l IH]; intros s; [constructor|].
    rewrite events_forEach_cons. apply Forall_app. split;
      [apply recalcSize_sizing | apply IH].
Qed.

Lemma filter_none (P : Event -> bool) (evs : list Event) :
  Forall (fun e => P e = false) evs -> filter (fun e => P e = true) evs = [].
Proof.
  induction 1 as [|e evs He _ IH]; [reflexivity|].
  rewrite filter_cons_False by congruence. exact IH.
Qed.

Lemma filter_all (P : Event -> bool) (evs : list Event) :
  Forall (fun e => P e = true) evs -> filter (fun e => P e = true) evs = evs.
Proof.
  induction 1 as [|e evs He _ IH]; [reflexivity|].
  rewrite filter_cons_True by assumption. rewrite IH. reflexivity.
Qed.

Lemma sizing_excludes (P : Event -> bool) (s : FlexState) :
  (forall e, isSizing e = true -> P e = false) ->
  filter (fun e => P e = true) (events (recalcSizes props) s) = [].
Proof.
  intros HP. apply filter_none.
  eapply Forall_impl; [apply recalcSizes_sizing|]. exact HP.
Qed.

Lemma positionCalls_filter (P : Event -> bool) (s : FlexState) (v : bool) :
  (forall g p, P (EvPositionCopy g p) = v) ->
  Forall (fun e => P e = v) (positionCalls props rootNode s).
Proof.
  intros HP. unfold positionCalls. apply Forall_fmap, Forall_forall.
  intros b _. apply HP.
Qed.

Lemma reflowNotification_filter (P : Event -> bool) (s : FlexState) (v : bool) :
  (forall w h, P (EvOnReflow w h) = v) ->
  Forall (fun e => P e = v) (reflowNotification props rootNode s).
Proof.
  intros HP. unfold reflowNotification.
  destruct (onReflow props); repeat constructor. apply HP.
Qed.

Lemma listenerEvents_filter (P : Event -> bool) (s : FlexState) (v : bool) :
  P EvInvalidate = v ->
  Forall (fun e => P e = v) (listenerEvents props rootNode s).
Proof. apply events_runCalls_all. Qed.

Lemma events_reflow (s : FlexState) :
  events (reflow props rootNode) s =
  events (recalcSizes props) s ++ [layoutCall props rootNode] ++
  positionCalls props rootNode s ++ reflowNotification props rootNode s ++
  listenerEvents props rootNode s ++ [EvInvalidate].
Proof. unfold events at 1. rewrite reflow_run. reflexivity. Qed.

Lemma exec_reflow (s : FlexState) :
  exec (reflow props rootNode) s = afterListener props rootNode s.
Proof. unfold exec. rewrite reflow_run. reflexivity. Qed.

(** The [position.copy] calls of a reflow. *)
Lemma reflow_positionCalls (s : FlexState) :
  filter (fun e => isPositionCopy e = true) (events (reflow props rootNode) s) =
  positionCalls props rootNode s.
Proof.
  rewrite events_reflow, !filter_app.
  rewrite (sizing_excludes isPositionCopy) by (intros []; cbn; congruence).
  rewrite (filter_all _ _ (positionCalls_filter isPositionCopy s true (fun _ _ => eq_refl))).
  rewrite (filter_none _ _ (reflowNotification_filter isPositionCopy s false (fun _ _ => eq_refl))).
  rewrite (filter_none _ _ (listenerEvents_filter isPositionCopy s false eq_refl)).
  cbn. rewrite app_nil_r. reflexivity.
Qed.

(** The [onReflow] calls of a reflow. *)
Lemma reflow_notifications (s : FlexState) :
  filter (fun e => isOnReflow e = true) (events (reflow props rootNode) s) =
  reflowNotification props rootNode s.
Proof.
  rewrite events_reflow, !filter_app.
  rewrite (sizing_excludes isOnReflow) by (intros []; cbn; congruence).
  rewrite (filter_none _ _ (positionCalls_filter isOnReflow s false (fun _ _ => eq_refl))).
  rewrite (filter_all _ _ (reflowNotification_filter isOnReflow s true (fun _ _ => eq_refl))).
  rewrite (filter_none _ _ (listenerEvents_filter isOnReflow s false eq_refl)).
  cbn. rewrite app_nil_r. reflexivity.
Qed.

(** A reflow computes the layout exactly once. *)
Lemma reflow_recomputations (s : FlexState) :
  recomputations (events (reflow props rootNode) s) = 1%nat.
Proof.
  unfold recomputations. rewrite events_reflow, !filter_app.
  rewrite (sizing_excludes isCalculateLayout) by (intros []; cbn; congruence).
  rewrite (filter_none _ _ (positionCalls_filter isCalculateLayout s false (fun _ _ => eq_refl))).
  rewrite (filter_none _ _ (reflowNotification_filter isCalculateLayout s false (fun _ _ => eq_refl))).
  rewrite (filter_none _ _ (listenerEvents_filter isCalculateLayout s false eq_refl)).
  reflexivity.
Qed.
End ReflowLog.

(** ** Mapping the layout to positions *)

Section PositionMapping.
Context `{External}.
Variable props : FlexProps.

Let sf := scaleFactor props.

Lemma boxPosition_components (shift : Q * Q) (l : Layout.t) (ca : bool) :
  let p := boxPosition props shift l ca in
  Vector3.get (mainAxis (plane props)) p =
    (shift.1 + Layout.left l + (if ca then Layout.width l / 2 else 0)) / sf /\
  Vector3.get (crossAxis (plane props)) p =
    - (shift.2 + Layout.top l + (if ca then Layout.height l / 2 else 0)) / sf /\
  Vector3.get (getDepthAxis (plane props)) p = 0.
Proof.
  destruct shift as [ms cs]. unfold boxPosition.
  destruct (plane props); cbn; repeat split; reflexivity.
Qed.

Lemma crossAxis_decreases (shift : Q * Q) (lft w h t1 t2 : Q) (ca : bool) :
  0 < sf -> t1 < t2 ->
  Vector3.get (crossAxis (plane props)) (boxPosition props shift (Layout.mk lft t2 w h) ca) <
  Vector3.get (crossAxis (plane props)) (boxPosition props shift (Layout.mk lft t1 w h) ca).
Proof.
  intros Hsf Ht.
  destruct (boxPosition_components shift (Layout.mk lft t2 w h) ca) as (_ & -> & _).
  destruct (boxPosition_components shift (Layout.mk lft t1 w h) ca) as (_ & -> & _).
  cbn [Layout.top Layout.height]. unfold Qdiv.
  apply Qmult_lt_compat_r; [apply Qinv_lt_0_compat; exact Hsf | lra].
Qed.

(** C1. Every registered box gets one [position.copy], in registration
    order, with the vector [boxPosition] built from the layout the solver
    computed for its node.  In that vector the main axis of the plane
    holds [(mainAxisShift + left + (centerAnchor ? width / 2 : 0)) /
    scaleFactor], the cross axis holds the negation of [crossAxisShift +
    top + (centerAnchor ? height / 2 : 0)] divided by the scale factor,
    and the depth axis holds [0].  With the default plane [xy] and scale
    factor [100], no shift and no centering, the layout [(0, 0, 100, 50)]
    maps to [(0, 0, 0)]; and for a positive scale factor a larger [top]
    gives a strictly smaller cross-axis coordinate. *)
Theorem position_mapping (rootNode : YogaNode) (s : FlexState) :
  filter (fun e => isPositionCopy e = true) (events (reflow props rootNode) s) =
    (fun b => EvPositionCopy (group b) (positionOf props rootNode s b)) <$> boxesRef s /\
  (forall (shift : Q * Q) (l : Layout.t) (ca : bool),
     let p := boxPosition props shift l ca in
     Vector3.get (mainAxis (plane props)) p =
       (shift.1 + Layout.left l + (if ca then Layout.width l / 2 else 0)) / sf /\
     Vector3.get (crossAxis (plane props)) p =
       - (shift.2 + Layout.top l + (if ca then Layout.height l / 2 else 0)) / sf /\
     Vector3.get (getDepthAxis (plane props)) p = 0) /\
  Vector3.eq (boxPosition defaultProps (0, 0) (Layout.mk 0 0 100 50) false)
             (Vector3.mk 0 0 0) /\
  (forall (shift : Q * Q) (lft w h t1 t2 : Q) (ca : bool),
     0 < sf -> t1 < t2 ->
     Vector3.get (crossAxis (plane props))
       (boxPosition props shift (Layout.mk lft t2 w h) ca) <
     Vector3.get (crossAxis (plane props))
       (boxPosition props shift (Layout.mk lft t1 w h) ca)).
Proof.
  split; [apply reflow_positionCalls|].
  split; [apply boxPosition_components|].
  split; [repeat split; reflexivity|].
  apply crossAxis_decreases.
Qed.
End PositionMapping.

(** ** The dirty flag and the per-frame check *)

Lemma dirtyRef_registerBox n g fp ca s :
  dirtyRef (exec (registerBox n g fp ca) s) = dirtyRef s.
Proof.
  unfold registerBox. run.
  destruct (bool_decide _); reflexivity.
Qed.

Lemma dirtyRef_unregisterBox n s :
  dirtyRef (exec (unregisterBox n) s) = dirtyRef s.
Proof.
  unfold unregisterBox. run.
  destruct (bool_decide _); reflexivity.
Qed.

Lemma dirtyRef_runCall (c : ContextCall) (s : FlexState) :
  dirtyRef (exec (runCall c) s) =
  match c with CallRequestReflow => true | _ => dirtyRef s end.
Proof.
  destruct c as [|n g fp ca|n]; cbn [runCall].
  - reflexivity.
  - rewrite exec_bind. apply dirtyRef_registerBox.
  - apply dirtyRef_unregisterBox.
Qed.

Lemma dirtyRef_runCalls_keep (cs : list ContextCall) (s : FlexState) :
  dirtyRef s = true -> dirtyRef (exec (runCalls cs) s) = true.
Proof.
  revert s. induction cs as [|c cs IH]; intros s Hd; [exact Hd|].
  unfold runCalls. rewrite exec_forEach_cons. apply IH.
  rewrite dirtyRef_runCall. destruct c; [reflexivity | exact Hd | exact Hd].
Qed.

Lemma dirtyRef_runCalls (cs : list ContextCall) (s : FlexState) :
  CallRequestReflow ∈ cs -> dirtyRef (exec (runCalls cs) s) = true.
Proof.
  revert s. induction cs as [|c cs IH]; intros s Hin.
  - apply elem_of_nil in Hin. contradiction.
  - unfold runCalls. rewrite exec_forEach_cons.
    apply elem_of_cons in Hin as [<- | Hin].
    + apply dirtyRef_runCalls_keep. reflexivity.
    + apply IH. exact Hin.
Qed.

Section Scheduler.
Context `{External}.
Variable props : FlexProps.
Variable rootNode : YogaNode.

Lemma frame_dirty (s : FlexState) :
  dirtyRef s = true ->
  frame props rootNode s = reflow props rootNode (set_dirtyRef false s).
Proof.
  intros Hd. unfold frame. run. rewrite Hd.
  destruct (reflow props rootNode (set_dirtyRef false s)) as [[[] t] e].
  reflexivity.
Qed.

Lemma frame_clean (s : FlexState) :
  dirtyRef s = false -> frame props rootNode s = (tt, s, []).
Proof. intros Hd. unfold frame. run. rewrite Hd. reflexivity. Qed.

Lemma dirtyRef_repositioned (s : FlexState) :
  dirtyRef (repositioned props rootNode s) = dirtyRef s.
Proof.
  unfold repositioned. cbn.
  destruct (laidOut_frame props rootNode s) as (_ & Hd & _). exact Hd.
Qed.

Lemma frame_recomputes_once (s : FlexState) :
  dirtyRef s = true ->
  recomputations (events (frame props rootNode) s) = 1%nat.
Proof.
  intros Hd. unfold events. rewrite (frame_dirty s Hd).
  apply (reflow_recomputations props rootNode).
Qed.

(** C2. Reflow requests coalesce.  After [N >= 1] calls of
    [requestReflow] -- and more generally after any sequence of context
    calls that contains one -- the next frame computes the layout exactly
    once.  The flag is cleared before [reflow] runs: a listener that
    requests a reflow while the recomputation is running leaves the flag
    set after the frame, so that frame still recomputes once and the
    next frame recomputes exactly once again.  When nothing sets the flag
    during the recomputation it is clear afterwards and the next frame
    does nothing. *)
Theorem reflow_requests_coalesce (s : FlexState) :
  (forall N : nat, (1 <= N)%nat ->
     recomputations
       (events (frame props rootNode)
          (exec (runCalls (replicate N CallRequestReflow)) s)) = 1%nat) /\
  (forall cs : list ContextCall, CallRequestReflow ∈ cs ->
     recomputations
       (events (frame props rootNode) (exec (runCalls cs) s)) = 1%nat) /\
  (forall listener : Q -> Q -> list ContextCall,
     onReflow props = Some listener ->
     (forall w h, CallRequestReflow ∈ listener w h) ->
     dirtyRef s = true ->
     let s' := exec (frame props rootNode) s in
     recomputations (events (frame props rootNode) s) = 1%nat /\
     dirtyRef s' = true /\
     recomputations (events (frame props rootNode) s') = 1%nat) /\
  (onReflow props = None ->
     dirtyRef s = true ->
     let s' := exec (frame props rootNode) s in
     dirtyRef s' = false /\ frame props rootNode s' = (tt, s', [])).
Proof.
  assert (forall cs : list ContextCall, CallRequestReflow ∈ cs ->
     recomputations
       (events (frame props rootNode) (exec (runCalls cs) s)) = 1%nat) as Hcalls.
  { intros cs Hin. apply frame_recomputes_once, dirtyRef_runCalls, Hin. }
  split; [|split; [exact Hcalls|split]].
  - intros N HN. apply Hcalls. destruct N as [|N]; [lia|]. left.
  - intros listener Hl Hset Hd s'.
    assert (dirtyRef s' = true) as Hd'.
    { subst s'. unfold exec. rewrite (frame_dirty s Hd).
      fold (exec (reflow props rootNode) (set_dirtyRef false s)).
      rewrite exec_reflow. unfold afterListener, listenerCalls. rewrite Hl.
      apply dirtyRef_runCalls, Hset. }
    split; [apply frame_recomputes_once, Hd|].
    split; [exact Hd'|]. apply frame_recomputes_once, Hd'.
  - intros Hnone Hd s'.
    assert (dirtyRef s' = false) as Hd'.
    { subst s'. unfold exec. rewrite (frame_dirty s Hd).
      fold (exec (reflow props rootNode) (set_dirtyRef false s)).
      rewrite exec_reflow. unfold afterListener, listenerCalls. rewrite Hnone.
      apply dirtyRef_repositioned. }
    split; [exact Hd'|]. apply frame_clean, Hd'.
Qed.
End Scheduler.

(** ** The reported bounding extent *)

Lemma fold_Qmin_spec {A} (f : A -> Q) (l : list A) (a : Q) :
  let m := fold_left Qmin (f <$> l) a in
  m <= a /\ (forall x, x ∈ l -> m <= f x) /\
  (m == a \/ exists x, x ∈ l /\ m == f x).
Proof.
  revert a. induction l as [|y l IH]; intros a; cbn.
  - split; [apply Qle_refl|]. split; [|left; reflexivity].
    intros x Hx. apply elem_of_nil in Hx. contradiction.
  - destruct (IH (Qmin a (f y))) as (Hle & Hall & Hex). split; [|split].
    + eapply Qle_trans; [exact Hle | apply Q.le_min_l].
    + intros x Hx. apply elem_of_cons in Hx as [-> | Hx]; [|apply Hall, Hx].
      eapply Qle_trans; [exact Hle | apply Q.le_min_r].
    + destruct Hex as [Hm | (x & Hx & Hm)].
      * destruct (Q.min_spec a (f y)) as [[_ Hmin] | [_ Hmin]].
        -- left. rewrite Hm. exact Hmin.
        -- right. exists y. split; [left | rewrite Hm; exact Hmin].
      * right. exists x. split; [right; exact Hx | exact Hm].
Qed.

Lemma fold_Qmax_spec {A} (f : A -> Q) (l : list A) (a : Q) :
  let m := fold_left Qmax (f <$> l) a in
  a <= m /\ (forall x, x ∈ l -> f x <= m) /\
  (m == a \/ exists x, x ∈ l /\ m == f x).
Proof.
  revert a. induction l as [|y l IH]; intros a; cbn.
  - split; [apply Qle_refl|]. split; [|left; reflexivity].
    intros x Hx. apply elem_of_nil in Hx. contradiction.
  - destruct (IH (Qmax a (f y))) as (Hle & Hall & Hex). split; [|split].
    + eapply Qle_trans; [apply Q.le_max_l | exact Hle].
    + intros x Hx. apply elem_of_cons in Hx as [-> | Hx]; [|apply Hall, Hx].
      eapply Qle_trans; [apply Q.le_max_r | exact Hle].
    + destruct Hex as [Hm | (x & Hx & Hm)].
      * destruct (Q.max_spec a (f y)) as [[_ Hmax] | [_ Hmax]].
        -- right. exists y. split; [left | rewrite Hm; exact Hmax].
        -- left. rewrite Hm. exact Hmax.
      * right. exists x. split; [right; exact Hx | exact Hm].
Qed.

Section Notification.
Context `{External}.
Variable props : FlexProps.
Variable rootNode : YogaNode.

Let sf := scaleFactor props.

(** C6, as the code has it.  A reflow calls the [onReflow] listener
    exactly once when there is one, and not at all otherwise, with
    [((maxX - minX) / scaleFactor, (maxY - minY) / scaleFactor)], where
    [minX], [maxX], [minY], [maxY] are the running bounds of [left],
    [left + width], [top], [top + height] over the computed layouts of the
    registered boxes, started at [0]: each is the least (greatest) of [0]
    and the boxes' values. *)
Theorem reflow_reports_extent (s : FlexState) :
  let ls := boxLayouts props rootNode s in
  let right := fun l => Layout.left l + Layout.width l in
  let bottom := fun l => Layout.top l + Layout.height l in
  let minX := fold_left Qmin (Layout.left <$> ls) 0 in
  let maxX := fold_left Qmax (right <$> ls) 0 in
  let minY := fold_left Qmin (Layout.top <$> ls) 0 in
  let maxY := fold_left Qmax (bottom <$> ls) 0 in
  (forall listener, onReflow props = Some listener ->
     filter (fun e => isOnReflow e = true) (events (reflow props rootNode) s) =
     [EvOnReflow ((maxX - minX) / sf) ((maxY - minY) / sf)]) /\
  (onReflow props = None ->
     filter (fun e => isOnReflow e = true) (events (reflow props rootNode) s) = []) /\
  (minX <= 0 /\ (forall l, l ∈ ls -> minX <= Layout.left l) /\
   (minX == 0 \/ exists l, l ∈ ls /\ minX == Layout.left l)) /\
  (0 <= maxX /\ (forall l, l ∈ ls -> right l <= maxX) /\
   (maxX == 0 \/ exists l, l ∈ ls /\ maxX == right l)) /\
  (minY <= 0 /\ (forall l, l ∈ ls -> minY <= Layout.top l) /\
   (minY == 0 \/ exists l, l ∈ ls /\ minY == Layout.top l)) /\
  (0 <= maxY /\ (forall l, l ∈ ls -> bottom l <= maxY) /\
   (maxY == 0 \/ exists l, l ∈ ls /\ maxY == bottom l)).
Proof.
  intros ls right bottom mnX mxX mnY mxY.
  split; [|split; [|split; [|split; [|split]]]].
  - intros listener Hl. rewrite reflow_notifications.
    unfold reflowNotification. rewrite Hl. reflexivity.
  - intros Hnone. rewrite reflow_notifications.
    unfold reflowNotification. rewrite Hnone. reflexivity.
  - apply (fold_Qmin_spec Layout.left ls 0).
  - apply (fold_Qmax_spec right ls 0).
  - apply (fold_Qmin_spec Layout.top ls 0).
  - apply (fold_Qmax_spec bottom ls 0).
Qed.
End Notification.

(** ** Replaying writes *)

(** A sequence of writes, each of which either overrides or commutes
    with any other, has the same effect when it is replayed. *)
Section Replay.
Context {S W : Type} (app : S -> W -> S).
Hypothesis override_or_commute : forall w w' : W,
  (forall y, app (app y w') w = app y w) \/
  (forall y, app (app y w') w = app (app y w) w').
Hypothesis write_idem : forall w y, app (app y w) w = app y w.

Lemma fold_then_write (ws : list W) (w : W) (a b : S) :
  app a w = app b w ->
  app (fold_left app ws a) w = app (fold_left app ws b) w.
Proof.
  revert a b. induction ws as [|w' ws IH]; intros a b Hab; [exact Hab|].
  cbn [fold_left]. apply IH.
  destruct (override_or_commute w w') as [Ho | Hc].
  - rewrite !Ho. exact Hab.
  - rewrite !Hc, Hab. reflexivity.
Qed.

Lemma fold_replay (ws : list W) (y : S) :
  fold_left app ws (fold_left app ws y) = fold_left app ws y.
Proof.
  revert y. induction ws as [|w ws IH] using rev_ind; intros y; [reflexivity|].
  rewrite !fold_left_app. cbn [fold_left].
  rewrite (fold_then_write ws w (app (fold_left app ws y) w) (fold_left app ws y))
    by apply write_idem.
  rewrite IH. reflexivity.
Qed.
End Replay.

Lemma yoga_eq (y1 y2 : Yoga) :
  styles y1 = styles y2 -> layouts y1 = layouts y2 -> y1 = y2.
Proof. destruct y1, y2. cbn. intros -> ->. reflexivity. Qed.

Lemma styles_setWidth n v yg :
  styles (yoga_setWidth n v yg) =
  <[n := mkStyle (Some v) (styleHeight (nodeStyle yg n)) (children (nodeStyle yg n))]>
    (styles yg).
Proof. reflexivity. Qed.

Lemma styles_setHeight n v yg :
  styles (yoga_setHeight n v yg) =
  <[n := mkStyle (styleWidth (nodeStyle yg n)) (Some v) (children (nodeStyle yg n))]>
    (styles yg).
Proof. reflexivity. Qed.

Ltac store_step :=
  apply yoga_eq; [|reflexivity];
  repeat first [ rewrite styles_setWidth | rewrite styles_setHeight
               | rewrite nodeStyle_setWidth_eq | rewrite nodeStyle_setHeight_eq ];
  cbn [styleWidth styleHeight children].

Lemma setWidth_setWidth n v u yg :
  yoga_setWidth n v (yoga_setWidth n u yg) = yoga_setWidth n v yg.
Proof. store_step. apply insert_insert_eq. Qed.

Lemma setHeight_setHeight n v u yg :
  yoga_setHeight n v (yoga_setHeight n u yg) = yoga_setHeight n v yg.
Proof. store_step. apply insert_insert_eq. Qed.

Lemma setWidth_setHeight n m v u yg :
  yoga_setWidth n v (yoga_setHeight m u yg) = yoga_setHeight m u (yoga_setWidth n v yg).
Proof.
  destruct (decide (m = n)) as [->|Hne].
  - store_step. rewrite !insert_insert_eq. reflexivity.
  - store_step.
    rewrite nodeStyle_setHeight_ne, nodeStyle_setWidth_ne by congruence.
    apply insert_insert_ne. congruence.
Qed.

Lemma setWidth_setWidth_ne n m v u yg :
  n ≠ m ->
  yoga_setWidth n v (yoga_setWidth m u yg) = yoga_setWidth m u (yoga_setWidth n v yg).
Proof.
  intros Hne. store_step.
  rewrite !nodeStyle_setWidth_ne by congruence.
  apply insert_insert_ne. congruence.
Qed.

Lemma setHeight_setHeight_ne n m v u yg :
  n ≠ m ->
  yoga_setHeight n v (yoga_setHeight m u yg) = yoga_setHeight m u (yoga_setHeight n v yg).
Proof.
  intros Hne. store_step.
  rewrite !nodeStyle_setHeight_ne by congruence.
  apply insert_insert_ne. congruence.
Qed.

Lemma applyWrite_override_or_commute (w w' : Event) :
  (forall y, applyWrite (applyWrite y w') w = applyWrite y w) \/
  (forall y, applyWrite (applyWrite y w') w = applyWrite (applyWrite y w) w').
Proof.
  destruct w as [| |n v|n v| | | |]; try (right; intros y; reflexivity);
    destruct w' as [| |m u|m u| | | |]; try (right; intros y; reflexivity);
    cbn [applyWrite].
  - destruct (decide (n = m)) as [->|Hne].
    + left. intros y. apply setWidth_setWidth.
    + right. intros y. apply setWidth_setWidth_ne, Hne.
  - right. intros y. apply setWidth_setHeight.
  - right. intros y. symmetry. apply setWidth_setHeight.
  - destruct (decide (n = m)) as [->|Hne].
    + left. intros y. apply setHeight_setHeight.
    + right. intros y. apply setHeight_setHeight_ne, Hne.
Qed.

Lemma applyWrite_idem (w : Event) (y : Yoga) :
  applyWrite (applyWrite y w) w = applyWrite y w.
Proof.
  destruct w; cbn [applyWrite]; try reflexivity;
    [apply setWidth_setWidth | apply setHeight_setHeight].
Qed.

Lemma applyWrites_replay (evs : list Event) (yg : Yoga) :
  applyWrites evs (applyWrites evs yg) = applyWrites evs yg.
Proof.
  apply fold_replay; [apply applyWrite_override_or_commute | apply applyWrite_idem].
Qed.

(** The styles after a sequence of writes depend on the styles only. *)
Lemma styles_applyWrites (evs : list Event) (y1 y2 : Yoga) :
  styles y1 = styles y2 -> styles (applyWrites evs y1) = styles (applyWrites evs y2).
Proof.
  unfold applyWrites. revert y1 y2. induction evs as [|e evs IH]; intros y1 y2 Hst;
    [exact Hst|].
  cbn [fold_left]. apply IH.
  destruct e; cbn [applyWrite]; try exact Hst;
    unfold yoga_setWidth, yoga_setHeight, nodeStyle; cbn; rewrite Hst; reflexivity.
Qed.

Lemma scene_replay {B} (key : B -> Group) (val : B -> Vector3.t) (l : list B)
    (sc : gmap Group Vector3.t) :
  let put := fun (m : gmap Group Vector3.t) b => <[key b := val b]> m in
  fold_left put l (fold_left put l sc) = fold_left put l sc.
Proof.
  intros put. apply fold_replay.
  - intros b b'. subst put. cbn. destruct (decide (key b = key b')) as [Heq|Hne].
    + left. intros y. rewrite Heq. apply insert_insert_eq.
    + right. intros y. apply insert_insert_ne. congruence.
  - intros b y. subst put. cbn. apply insert_insert_eq.
Qed.

(** ** Idempotence of reflow *)

Lemma fold_left_pointwise {A B} (f g : A -> B -> A) (l : list B) (a : A) :
  (forall x y, f x y = g x y) -> fold_left f l a = fold_left g l a.
Proof.
  intros Hfg. revert a. induction l as [|b l IH]; intros a; [reflexivity|].
  cbn. rewrite Hfg. apply IH.
Qed.

Section Idempotence.
Context `{External}.
Variable props : FlexProps.
Variable rootNode : YogaNode.

Lemma recalcSize_events_ext (b : BoxesItem) (t t' : FlexState) :
  sameSizeInputs t t' ->
  events (recalcSize props b) t = events (recalcSize props b) t'.
Proof.
  intros (Hroot & Hmeas & Hcount).
  destruct (recalcSize_cases b t) as [(w & h & Hw & Hh) | [[Hm Hc] | [Hm Hc]]];
    unfold events.
  - rewrite !(recalcSize_forced props b _ w h Hw Hh). reflexivity.
  - rewrite (recalcSize_derived props b t Hm Hc).
    rewrite (recalcSize_derived props b t' Hm) by (rewrite <- Hcount; exact Hc).
    reflexivity.
  - rewrite (recalcSize_measured props b t Hm Hc).
    rewrite (recalcSize_measured props b t' Hm) by (rewrite <- Hcount; exact Hc).
    cbn. unfold measurementCall. rewrite Hmeas, Hroot. reflexivity.
Qed.

Lemma recalcSize_keeps_inputs (b : BoxesItem) (t : FlexState) :
  sameSizeInputs t (exec (recalcSize props b) t).
Proof.
  rewrite recalcSize_writes. repeat split.
  intros n. cbn. unfold yoga_getChildCount. rewrite children_applyWrites. reflexivity.
Qed.

Lemma sameSizeInputs_sym t t' : sameSizeInputs t t' -> sameSizeInputs t' t.
Proof. intros (H1 & H2 & H3). repeat split; intros; symmetry; auto. Qed.

Lemma sameSizeInputs_trans t1 t2 t3 :
  sameSizeInputs t1 t2 -> sameSizeInputs t2 t3 -> sameSizeInputs t1 t3.
Proof.
  intros (H1 & H2 & H3) (K1 & K2 & K3). repeat split; intros.
  - congruence.
  - rewrite H2. apply K2.
  - rewrite H3. apply K3.
Qed.

Lemma sizePass_events_ext (l : list BoxesItem) (t t' : FlexState) :
  sameSizeInputs t t' ->
  events (forEach l (recalcSize props)) t = events (forEach l (recalcSize props)) t'.
Proof.
  revert t t'. induction l as [|b l IH]; intros t t' Hsame; [reflexivity|].
  rewrite !events_forEach_cons.
  rewrite (recalcSize_events_ext b t t' Hsame). f_equal.
  apply IH.
  eapply sameSizeInputs_trans; [|apply recalcSize_keeps_inputs].
  eapply sameSizeInputs_trans; [|exact Hsame].
  apply sameSizeInputs_sym, recalcSize_keeps_inputs.
Qed.

Lemma recalcSizes_events_ext (t t' : FlexState) :
  boxesRef t = boxesRef t' -> sameSizeInputs t t' ->
  events (recalcSizes props) t = events (recalcSizes props) t'.
Proof.
  intros Hboxes Hsame. destruct (disableSizeRecalc props) eqn:Hd; unfold events.
  - rewrite !(recalcSizes_disabled props _ Hd). reflexivity.
  - rewrite !(recalcSizes_enabled props _ Hd), Hboxes.
    apply sizePass_events_ext, Hsame.
Qed.

Lemma laidOut_yoga (s : FlexState) :
  yoga (laidOut props rootNode s) =
  let st := styles (yoga (exec (recalcSizes props) s)) in
  mkYoga st
    (solveLayout st rootNode
       (Vector3.get (mainAxis (plane props)) (containerSize props) * scaleFactor props)
       (Vector3.get (crossAxis (plane props)) (containerSize props) * scaleFactor props)
       (yogaDirection_ (yogaDirection props))).
Proof. rewrite laidOut_eq. reflexivity. Qed.

Lemma afterListener_quiet (s : FlexState) :
  quietListener props ->
  exists d, afterListener props rootNode s =
            set_dirtyRef d (repositioned props rootNode s).
Proof.
  intros Hquiet. eexists. unfold afterListener.
  apply runCalls_requests_only.
  unfold quietListener in Hquiet. unfold listenerCalls.
  destruct (onReflow props) as [listener|]; [apply Hquiet | constructor].
Qed.

Lemma listenerCalls_totals (s s' : FlexState) :
  reflowTotals props rootNode s' = reflowTotals props rootNode s ->
  listenerCalls props rootNode s' = listenerCalls props rootNode s.
Proof. intros Htot. unfold listenerCalls. rewrite Htot. reflexivity. Qed.

Lemma listenerEvents_totals (s s' : FlexState) :
  reflowTotals props rootNode s' = reflowTotals props rootNode s ->
  listenerEvents props rootNode s' = listenerEvents props rootNode s.
Proof.
  intros Htot. unfold listenerEvents.
  rewrite (listenerCalls_totals s s' Htot), !events_runCalls. reflexivity.
Qed.

Lemma nodeStyle_styles (y1 y2 : Yoga) (n : YogaNode) :
  styles y1 = styles y2 -> nodeStyle y1 n = nodeStyle y2 n.
Proof. unfold nodeStyle. intros ->. reflexivity. Qed.

(** C7. Reflow is idempotent on a fixed snapshot.  When the listener
    registers, unregisters and moves nothing, and the groups measure the
    same after the first reflow as before it, a second reflow makes the
    very same calls -- the same size writes, the same layout request, the
    same position for every box and the same [(totalWidth, totalHeight)]
    notification -- and leaves the node store and the positions as the
    first one left them. *)
Theorem reflow_idempotent (s : FlexState) :
  quietListener props ->
  sameMeasurements (scene s) (scene (exec (reflow props rootNode) s)) ->
  let s1 := exec (reflow props rootNode) s in
  let s2 := exec (reflow props rootNode) s1 in
  events (reflow props rootNode) s1 = events (reflow props rootNode) s /\
  positionCalls props rootNode s1 = positionCalls props rootNode s /\
  reflowNotification props rootNode s1 = reflowNotification props rootNode s /\
  yoga s2 = yoga s1 /\ scene s2 = scene s1 /\ boxesRef s2 = boxesRef s1.
Proof.
  intros Hquiet Hmeas s1 s2.
  destruct (afterListener_quiet s Hquiet) as [d Hs1].
  assert (s1 = set_dirtyRef d (repositioned props rootNode s)) as Es1.
  { subst s1. rewrite exec_reflow. exact Hs1. }
  destruct (laidOut_frame props rootNode s) as (Hb & _ & Hr & Hsc & Hst).
  assert (boxesRef s1 = boxesRef s) as Hb1 by (rewrite Es1; exact Hb).
  assert (rootGroup s1 = rootGroup s) as Hr1 by (rewrite Es1; exact Hr).
  assert (yoga s1 = yoga (laidOut props rootNode s)) as Hy1 by (rewrite Es1; reflexivity).
  assert (scene s1 =
          fold_left (fun sc b => <[group b := positionOf props rootNode s b]> sc)
            (boxesRef s) (scene s)) as Hsc1.
  { rewrite Es1. cbn. rewrite Hsc. reflexivity. }
  (* the size pass of the second run reads what the first one read *)
  assert (styles (yoga s1) =
          styles (applyWrites (events (recalcSizes props) s) (yoga s))) as Hst1.
  { rewrite Hy1, Hst, recalcSizes_writes. reflexivity. }
  assert (sameSizeInputs s1 s) as Hsame.
  { split; [exact Hr1|]. split.
    - intros g. unfold measuredExtent. rewrite Hr1.
      destruct (Hmeas g 0%nat) as [_ Hfo].
      destruct (rootGroup s) as [r|]; [|symmetry; exact Hfo].
      destruct (Hmeas g r) as [Hobb _]. symmetry. exact Hobb.
    - intros n. unfold yoga_getChildCount.
      rewrite (nodeStyle_styles _ _ n Hst1), children_applyWrites. reflexivity. }
  assert (events (recalcSizes props) s1 = events (recalcSizes props) s) as Hev
    by (apply recalcSizes_events_ext; assumption).
  assert (styles (yoga (exec (recalcSizes props) s1)) =
          styles (yoga (exec (recalcSizes props) s))) as Hst2.
  { rewrite !recalcSizes_writes. cbn. rewrite Hev.
    rewrite (styles_applyWrites _ _ _ Hst1). rewrite applyWrites_replay. reflexivity. }
  assert (yoga (laidOut props rootNode s1) = yoga (laidOut props rootNode s)) as Hlay.
  { rewrite !laidOut_yoga. cbn zeta. rewrite Hst2. reflexivity. }
  assert (forall b, positionOf props rootNode s1 b = positionOf props rootNode s b) as Hpos.
  { intros b. unfold positionOf. rewrite Hlay. reflexivity. }
  assert (positionCalls props rootNode s1 = positionCalls props rootNode s) as Hcalls.
  { unfold positionCalls. rewrite Hb1. apply list_fmap_ext. intros _ b _.
    rewrite Hpos. reflexivity. }
  assert (reflowTotals props rootNode s1 = reflowTotals props rootNode s) as Htot.
  { unfold reflowTotals, boxLayouts. rewrite Hlay, Hb1. reflexivity. }
  assert (reflowNotification props rootNode s1 = reflowNotification props rootNode s)
    as Hnote.
  { unfold reflowNotification. rewrite Htot. reflexivity. }
  split; [|split; [exact Hcalls|split; [exact Hnote|]]].
  - rewrite !events_reflow, Hev, Hcalls, Hnote.
    rewrite (listenerEvents_totals s s1 Htot). reflexivity.
  - destruct (afterListener_quiet s1 Hquiet) as [d2 Hs2].
    assert (s2 = set_dirtyRef d2 (repositioned props rootNode s1)) as Es2.
    { subst s2. rewrite exec_reflow. exact Hs2. }
    destruct (laidOut_frame props rootNode s1) as (_ & _ & _ & Hsc' & _).
    rewrite Es2. cbn. split; [|split].
    + rewrite Hlay, Hy1. reflexivity.
    + rewrite Hsc', Hb1, Hsc1.
      rewrite (fold_left_pointwise _
                 (fun sc b => <[group b := positionOf props rootNode s b]> sc))
        by (intros; rewrite Hpos; reflexivity).
      apply (scene_replay group (positionOf props rootNode s)).
    + destruct (laidOut_frame props rootNode s1) as (Hb' & _). exact Hb'.
Qed.
End Idempotence.

(** ** Root shift and centering *)


(** ** The statements on concrete runs *)

(** Counterexample to C6 as worded.  With a padding of [10] the only box is
    laid out at [(10, 10, 100, 50)].  The extent of the boxes alone is
    [100 x 50], that is [(1, 0.5)] in unscaled units; the listener receives
    [(1.1, 0.6)], the extent measured from the origin. *)
Lemma extent_over_boxes_counterexample :
  @boxLayouts paddedExternal samplePropsListening 0%nat singleState =
    [Layout.mk 10 10 (1 * 100) ((1 # 2) * 100)] /\
  exists tw th cw ch,
    filter (fun e => isOnReflow e = true)
      (events (@reflow paddedExternal samplePropsListening 0%nat) singleState) =
      [EvOnReflow tw th] /\
    extentOverBoxes (@boxLayouts paddedExternal samplePropsListening 0%nat singleState) =
      Some (cw, ch) /\
    tw == 11 # 10 /\ th == 6 # 10 /\
    cw / 100 == 1 /\ ch / 100 == 1 # 2 /\
    ~ tw == cw / 100 /\ ~ th == ch / 100.
Proof.
  split; [reflexivity|].
  do 4 eexists. split; [vm_compute; reflexivity|].
  split; [vm_compute; reflexivity|].
  repeat split; try reflexivity; intros Heq; vm_compute in Heq; discriminate.
Qed.

(** C1 on the default container: raising [top] from [0] to [10] lowers
    the [y] coordinate. *)
Lemma position_mapping_witness :
  Vector3.get Y (boxPosition defaultProps (0, 0) (Layout.mk 0 10 100 50) false) <
  Vector3.get Y (boxPosition defaultProps (0, 0) (Layout.mk 0 0 100 50) false).
Proof.
  exact (proj2 (proj2 (proj2
    (@position_mapping plainExternal defaultProps 0%nat initialState)))
    (0, 0) 0 100 50 0 10 false eq_refl eq_refl).
Defined.

(** C2 on the sample container: three requests, one recomputation; a
    listener that requests a reflow keeps the flag set. *)
Lemma reflow_requests_coalesce_witness :
  recomputations
    (events (@frame plainExternal sampleProps 0%nat)
       (exec (runCalls (replicate 3 CallRequestReflow)) sampleState)) = 1%nat /\
  dirtyRef (exec (@frame plainExternal samplePropsListening 0%nat) sampleState) = true.
Proof.
  split.
  - apply (proj1 (@reflow_requests_coalesce plainExternal sampleProps 0%nat sampleState)).
    lia.
  - destruct (@reflow_requests_coalesce plainExternal samplePropsListening 0%nat sampleState)
      as (_ & _ & Hlistener & _).
    apply (Hlistener (fun _ _ => [CallRequestReflow])).
    + reflexivity.
    + intros w h. left.
    + reflexivity.
Defined.

(** C3 on the empty registry: the first registration of node [1] returns
    [true], a second one returns [false]. *)
Lemma registerBox_upsert_witness :
  result (registerBox 1%nat 11%nat (mkProps None None) false) initialState = true /\
  result (registerBox 1%nat 12%nat (mkProps None None) true) singleState = false.
Proof.
  split.
  - apply (proj1 (registerBox_upsert 1%nat 11%nat (mkProps None None) false initialState)).
    apply not_elem_of_nil.
  - apply (proj1 (proj2 (registerBox_upsert 1%nat 12%nat (mkProps None None) true singleState))).
    left.
Defined.

(** C9 on the sample registry: node [2] is removed, node [7] is not there. *)
Lemma unregisterBox_removes_or_noop_witness :
  (exists l1 old l2,
     boxesRef sampleState = l1 ++ old :: l2 /\ node old = 2%nat /\
     unregisterBox 2%nat sampleState = (tt, set_boxesRef (l1 ++ l2) sampleState, [])) /\
  unregisterBox 7%nat sampleState = (tt, sampleState, []).
Proof.
  split.
  - destruct (proj1 (unregisterBox_removes_or_noop 2%nat sampleState))
      as (l1 & old & l2 & Hs & Hold & _ & Hrun & _).
    + right. left.
    + exists l1, old, l2. repeat split; assumption.
  - apply (proj2 (unregisterBox_removes_or_noop 7%nat sampleState)).
    intros Hin. repeat (apply elem_of_cons in Hin as [Hin | Hin]; [discriminate|]).
    apply elem_of_nil in Hin. exact Hin.
Defined.

(** C4 on the sample registry: the first box has both sizes; its node
    receives [100] and [50] and nothing is measured for it. *)
Lemma explicit_size_written_verbatim_witness :
  events (@recalcSize plainExternal sampleProps sizedBox) sampleState =
    [EvSetWidth 1%nat (YNum (1 * 100)); EvSetHeight 1%nat (YNum ((1 # 2) * 100))] /\
  styleWidth (nodeStyle (yoga (exec (@recalcSizes plainExternal sampleProps) sampleState)) 1%nat)
    = Some (YNum (1 * 100)).
Proof.
  pose proof (@explicit_size_written_verbatim plainExternal sampleProps sampleState
                [] [zeroWidthBox; parentBox] sizedBox (YNum 1) (YNum (1 # 2))
                eq_refl eq_refl eq_refl eq_refl) as W.
  cbv zeta in W. destruct W as (Hcalls & _ & _ & _ & _ & Hend).
  split; [exact Hcalls|].
  apply Hend.
  intros Hin. repeat (apply elem_of_cons in Hin as [Hin | Hin]; [discriminate|]).
  apply elem_of_nil in Hin. exact Hin.
Defined.

(** C8 on the sample registry: the third box has no size and its node has
    a child; its step does nothing. *)
Lemma parent_box_left_to_solver_witness :
  let s1 := exec (forEach [sizedBox; zeroWidthBox] (@recalcSize plainExternal sampleProps))
              sampleState in
  @recalcSize plainExternal sampleProps parentBox s1 = (tt, s1, []).
Proof.
  cbv zeta.
  apply (proj1 (@parent_box_left_to_solver plainExternal sampleProps sampleState
                  [sizedBox; zeroWidthBox] [] parentBox eq_refl eq_refl
                  (or_introl eq_refl) (fun Heq => Nat.neq_succ_0 _ Heq))).
Defined.

(** C10 on the sample registry: the second box has width [0] and no
    height; its node's width becomes the measured [3] times [100]. *)
Lemma zero_size_is_measured_witness :
  let s1 := exec (forEach [sizedBox] (@recalcSize plainExternal sampleProps)) sampleState in
  styleWidth (nodeStyle (yoga (exec (@recalcSize plainExternal sampleProps zeroWidthBox) s1))
                2%nat) = Some (YNum (3 * 100)) /\
  styleWidth (nodeStyle (yoga (exec (@recalcSizes plainExternal sampleProps) sampleState))
                2%nat) = Some (YNum (3 * 100)).
Proof.
  cbv zeta.
  pose proof (@zero_size_is_measured plainExternal sampleProps sampleState
                [sizedBox] [parentBox] zeroWidthBox 0
                eq_refl eq_refl eq_refl (Qeq_refl 0)) as W.
  cbv zeta in W. destruct W as (Hwidth & _).
  destruct (Hwidth eq_refl eq_refl) as (_ & Hstep & _ & Hend).
  split; [exact Hstep|]. apply Hend.
  intros Hin. repeat (apply elem_of_cons in Hin as [Hin | Hin]; [discriminate|]).
  apply elem_of_nil in Hin. exact Hin.
Defined.


(** C6 on the padded sample container: one notification. *)
Lemma reflow_reports_extent_witness :
  exists tw th,
    filter (fun e => isOnReflow e = true)
      (events (@reflow paddedExternal samplePropsListening 0%nat) singleState) =
      [EvOnReflow tw th] /\ tw == 11 # 10 /\ th == 6 # 10.
Proof.
  pose proof (@reflow_reports_extent paddedExternal samplePropsListening 0%nat singleState)
    as W.
  cbv zeta in W. destruct W as (Hsome & _).
  do 2 eexists. split; [apply (Hsome _ eq_refl)|].
  split; reflexivity.
Defined.

(** C7 on the sample container with a listener that requests a reflow:
    the second reflow repeats the calls of the first. *)
Lemma reflow_idempotent_witness :
  let s1 := exec (@reflow plainExternal samplePropsListening 0%nat) sampleState in
  events (@reflow plainExternal samplePropsListening 0%nat) s1 =
  events (@reflow plainExternal samplePropsListening 0%nat) sampleState.
Proof.
  cbv zeta.
  assert (quietListener samplePropsListening) as Hquiet
    by (intros w h; repeat constructor).
  apply (proj1 (@reflow_idempotent plainExternal samplePropsListening 0%nat sampleState
                  Hquiet (fun g r => conj eq_refl eq_refl))).
Defined.


(** The end-to-end run of the specification: container size [2 x 1] in
    plane [xy], scale factor [100], one child with width [1] and height
    [0.5].  Its node receives the size [(100, 50)], the layout is computed
    once for [200 x 100] left to right, and the child is positioned at the
    origin. *)
Example end_to_end_run :
  exists w h p,
    events (@frame plainExternal sampleProps 0%nat) singleState =
      [EvSetWidth 1%nat (YNum w); EvSetHeight 1%nat (YNum h);
       EvCalculateLayout 0%nat (2 * 100) (1 * 100) DIRECTION_LTR;
       EvPositionCopy 11%nat p; EvInvalidate] /\
    w == 100 /\ h == 50 /\ Vector3.eq p (Vector3.mk 0 0 0).
Proof.
  do 3 eexists. split; [vm_compute; reflexivity|].
  repeat split; reflexivity.
Qed.


(** * Further properties of the registry, the scheduler and reflow *)

(** ** [findIndex] *)

(** X1. [findIndex] returns [-1] exactly when no element satisfies the
    predicate; otherwise it returns the index, within bounds, of an element
    that satisfies it, and no element before that index does. *)
Theorem findIndex_spec {A} (p : A -> bool) (l : list A) :
  (findIndex p l = (-1)%Z /\ Forall (fun a => p a = false) l) \/
  ((0 <= findIndex p l < Z.of_nat (length l))%Z /\
   exists a, l !! Z.to_nat (findIndex p l) = Some a /\ p a = true /\
     forall (j : nat) (b : A),
       (j < Z.to_nat (findIndex p l))%nat -> l !! j = Some b -> p b = false).
Proof.
  destruct (first_split p l) as [Hall | (l1 & a & l2 & -> & Hl1 & Ha)].
  - left. split; [apply findIndex_none; exact Hall | exact Hall].
  - right. rewrite (findIndex_first p l1 l2 a Hl1 Ha), Nat2Z.id.
    split; [rewrite length_app; cbn [length]; lia|].
    exists a. split; [|split; [exact Ha|]].
    + rewrite lookup_app_r by lia. rewrite Nat.sub_diag. reflexivity.
    + intros j b Hj Hb. rewrite lookup_app_l in Hb by exact Hj.
      rewrite Forall_forall in Hl1. apply Hl1.
      apply list_elem_of_lookup. eauto.
Qed.

(** ** The registry as a map from nodes to records *)

Section Find.
Context {A : Type} (p : A -> bool).

Lemma find_none_all (l : list A) :
  Forall (fun a => p a = false) l -> find p l = None.
Proof.
  induction 1 as [|a l Ha _ IH]; [reflexivity|]. cbn. rewrite Ha. exact IH.
Qed.

Lemma find_first_hit (l1 l2 : list A) (a : A) :
  Forall (fun a => p a = false) l1 -> p a = true -> find p (l1 ++ a :: l2) = Some a.
Proof.
  intros Hall Ha. induction Hall as [|b l Hb _ IH]; cbn.
  - rewrite Ha. reflexivity.
  - rewrite Hb. exact IH.
Qed.

Lemma find_skip (l1 l2 : list A) (a : A) :
  p a = false -> find p (l1 ++ a :: l2) = find p (l1 ++ l2).
Proof.
  intros Ha. induction l1 as [|b l1 IH]; cbn.
  - rewrite Ha. reflexivity.
  - destruct (p b); [reflexivity | exact IH].
Qed.
End Find.

Lemma sameNode_other (m : YogaNode) (b : BoxesItem) :
  node b ≠ m -> sameNode m b = false.
Proof. intros Hne. unfold sameNode. apply bool_decide_eq_false. exact Hne. Qed.

Lemma sameNode_self (b : BoxesItem) : sameNode (node b) b = true.
Proof. unfold sameNode. apply bool_decide_eq_true. reflexivity. Qed.

(** X2. Insert and lookup.  After [registerBox] of a node, the record the
    registry holds for that node is the one just passed, whether the node was
    new or already registered; the record of every other node is the one
    it was before. *)
Theorem registerBox_lookup (n : YogaNode) (g : Group) (fp : R3FlexProps)
    (ca : bool) (s : FlexState) :
  let s' := exec (registerBox n g fp ca) s in
  lookupBox n s' = Some (mkBox n g fp ca) /\
  forall m : YogaNode, m ≠ n -> lookupBox m s' = lookupBox m s.
Proof.
  intros s'. subst s'. unfold lookupBox, exec.
  destruct (registerBox_cases n g fp ca s)
    as [[Hout ->] | (l1 & old & l2 & Hs & Hold & Hl1 & ->)]; cbn.
  - split.
    + apply find_first_hit; [apply absent_all_false, Hout | apply sameNode_self].
    + intros m Hm. rewrite find_skip by (apply sameNode_other; cbn; congruence).
      rewrite app_nil_r. reflexivity.
  - rewrite Hs. split.
    + apply find_first_hit; [apply absent_all_false, Hl1 | apply sameNode_self].
    + intros m Hm. rewrite !find_skip by (apply sameNode_other; cbn; congruence).
      reflexivity.
Qed.

(** X3. Delete and lookup.  [unregisterBox] leaves the record of every
    other node as it was; in a registry without duplicate nodes the
    unregistered node has no record afterwards. *)
Theorem unregisterBox_lookup (n : YogaNode) (s : FlexState) :
  let s' := exec (unregisterBox n) s in
  (forall m : YogaNode, m ≠ n -> lookupBox m s' = lookupBox m s) /\
  (NoDup (node <$> boxesRef s) -> lookupBox n s' = None).
Proof.
  intros s'. subst s'. unfold lookupBox, exec.
  destruct (unregisterBox_cases n s)
    as [[Hout ->] | (l1 & old & l2 & Hs & Hold & Hl1 & ->)]; cbn.
  - split; [reflexivity|]. intros _.
    apply find_none_all, absent_all_false, Hout.
  - rewrite Hs. split.
    + intros m Hm. rewrite find_skip by (apply sameNode_other; congruence).
      reflexivity.
    + intros Hnd. apply find_none_all, absent_all_false.
      rewrite fmap_app, fmap_cons, Hold in Hnd.
      apply NoDup_app in Hnd as (_ & Hdisj & Hnd2).
      apply NoDup_cons in Hnd2 as [Hn2 _].
      rewrite fmap_app. intros Hx. apply elem_of_app in Hx as [Hx | Hx]; contradiction.
Qed.

(** X4. Register then unregister is a round trip: for a node that was not
    registered, the pair leaves the whole state as it was and makes no
    call. *)
Theorem register_unregister_roundtrip (n : YogaNode) (g : Group)
    (fp : R3FlexProps) (ca : bool) (s : FlexState) :
  n ∉ node <$> boxesRef s ->
  (registerBox n g fp ca;; unregisterBox n) s = (tt, s, []).
Proof.
  intros Hout. rewrite run_bind. unfold result, exec, events.
  rewrite (registerBox_absent _ _ _ _ _ Hout). cbn [fst snd].
  rewrite (unregisterBox_present n
             (set_boxesRef (boxesRef s ++ [mkBox n g fp ca]) s)
             (boxesRef s) (mkBox n g fp ca) [] eq_refl eq_refl Hout).
  cbn. rewrite app_nil_r. destruct s. reflexivity.
Qed.

(** X5. The last registration of a node wins: registering a node twice in a
    row leaves the registry as the second registration alone would; in
    particular repeating a registration changes nothing. *)
Theorem registerBox_last_wins (n : YogaNode) (g g' : Group)
    (fp fp' : R3FlexProps) (ca ca' : bool) (s : FlexState) :
  exec (registerBox n g' fp' ca') (exec (registerBox n g fp ca) s) =
  exec (registerBox n g' fp' ca') s.
Proof.
  unfold exec.
  destruct (registerBox_cases n g fp ca s)
    as [[Hout ->] | (l1 & old & l2 & Hs & Hold & Hl1 & ->)]; cbn [fst snd].
  - rewrite (registerBox_present n g' fp' ca'
               (set_boxesRef (boxesRef s ++ [mkBox n g fp ca]) s)
               (boxesRef s) (mkBox n g fp ca) [] eq_refl eq_refl Hout).
    rewrite (registerBox_absent _ _ _ _ _ Hout). reflexivity.
  - rewrite (registerBox_present n g' fp' ca'
               (set_boxesRef (l1 ++ mkBox n g fp ca :: l2) s)
               l1 (mkBox n g fp ca) l2 eq_refl eq_refl Hl1).
    rewrite (registerBox_present n g' fp' ca' s l1 old l2 Hs Hold Hl1).
    reflexivity.
Qed.

Lemma NoDup_registerBox n g fp ca s :
  NoDup (node <$> boxesRef s) ->
  NoDup (node <$> boxesRef (exec (registerBox n g fp ca) s)).
Proof.
  intros Hnd. unfold exec.
  destruct (registerBox_cases n g fp ca s)
    as [[Hout ->] | (l1 & old & l2 & Hs & Hold & Hl1 & ->)]; cbn.
  - rewrite fmap_app. apply NoDup_app. split; [exact Hnd|]. split.
    + intros x Hx Hx'. apply list_elem_of_singleton in Hx'. cbn in Hx'. subst x.
      contradiction.
    + apply NoDup_singleton.
  - rewrite Hs in Hnd. rewrite fmap_app, fmap_cons in *. cbn [node].
    rewrite Hold in Hnd. exact Hnd.
Qed.

Lemma NoDup_unregisterBox n s :
  NoDup (node <$> boxesRef s) ->
  NoDup (node <$> boxesRef (exec (unregisterBox n) s)).
Proof.
  intros Hnd. unfold exec.
  destruct (unregisterBox_cases n s)
    as [[Hout ->] | (l1 & old & l2 & Hs & Hold & Hl1 & ->)]; cbn; [exact Hnd|].
  rewrite Hs in Hnd. rewrite fmap_app, fmap_cons in Hnd. rewrite fmap_app.
  apply NoDup_app in Hnd as (Hn1 & Hdisj & Hn2).
  apply NoDup_cons in Hn2 as [_ Hn2].
  apply NoDup_app. split; [exact Hn1|]. split; [|exact Hn2].
  intros x Hx Hx'. apply (Hdisj x Hx). right. exact Hx'.
Qed.

(** X6. The registry never holds two records for one node: starting from
    a registry without duplicate nodes -- the empty one of a fresh container
    in particular -- every sequence of context calls leaves it without
    duplicates. *)
Theorem registry_nodes_unique (cs : list ContextCall) (s : FlexState) :
  NoDup (node <$> boxesRef s) ->
  NoDup (node <$> boxesRef (exec (runCalls cs) s)).
Proof.
  revert s. induction cs as [|c cs IH]; intros s Hnd; [exact Hnd|].
  unfold runCalls. rewrite exec_forEach_cons. apply IH.
  destruct c as [|n g fp ca|n]; cbn [runCall].
  - exact Hnd.
  - rewrite exec_bind. apply NoDup_registerBox, Hnd.
  - apply NoDup_unregisterBox, Hnd.
Qed.

(** ** Context calls and the scheduler *)

(** X7. [registerBox] and [unregisterBox] are pure bookkeeping: a sequence
    of them changes nothing but the registry -- not the dirty flag, the node
    store, the positions or the root group.  In particular they do not
    schedule a reflow: on a clean container the next frame makes no call
    and changes nothing. *)
Theorem registry_calls_do_not_schedule `{External} (props : FlexProps)
    (rootNode : YogaNode) (cs : list ContextCall) (s : FlexState) :
  Forall (fun c => isRequestReflow c = false) cs ->
  let s' := exec (runCalls cs) s in
  s' = set_boxesRef (boxesRef s') s /\
  (dirtyRef s = false -> frame props rootNode s' = (tt, s', [])).
Proof.
  intros Hcs s'.
  assert (s' = set_boxesRef (boxesRef s') s) as Hs'.
  { subst s'. revert s. induction Hcs as [|c cs Hc _ IH]; intros s.
    - destruct s. reflexivity.
    - unfold runCalls. rewrite exec_forEach_cons.
      destruct (runCall_registry c s Hc) as [l Hrun].
      unfold exec at 2 4. rewrite Hrun. cbn [fst snd].
      fold (runCalls cs). rewrite (IH (set_boxesRef l s)) at 1. reflexivity. }
  split; [exact Hs'|].
  intros Hclean. apply frame_clean. rewrite Hs'. exact Hclean.
Qed.

(** X8. Requests are not coalesced towards the host: a sequence of context
    calls asks the renderer to [invalidate] once per [requestReflow] and
    makes no other call. *)
Theorem invalidate_per_request (cs : list ContextCall) (s : FlexState) :
  events (runCalls cs) s =
  replicate (length (filter (fun c => isRequestReflow c = true) cs)) EvInvalidate.
Proof.
  revert s. induction cs as [|c cs IH]; intros s; [reflexivity|].
  unfold runCalls. rewrite events_forEach_cons. fold (runCalls cs).
  rewrite IH, events_runCall.
  destruct (isRequestReflow c) eqn:Hc.
  - rewrite filter_cons_True by exact Hc. reflexivity.
  - rewrite filter_cons_False by congruence. reflexivity.
Qed.

(** ** What a reflow changes and what it leaves alone *)

Section PutFold.
Context {B : Type} (key : B -> Group) (val : B -> Vector3.t).

Let put := fun (m : gmap Group Vector3.t) (b : B) => <[key b := val b]> m.

Lemma fold_put_other (l : list B) (sc : gmap Group Vector3.t) (g : Group) :
  g ∉ key <$> l -> fold_left put l sc !! g = sc !! g.
Proof.
  revert sc. induction l as [|b l IH]; intros sc Hg; [reflexivity|].
  cbn [fold_left]. rewrite IH.
  - subst put. cbn. apply lookup_insert_ne. intros Heq. apply Hg.
    rewrite fmap_cons, Heq. left.
  - intros Hin. apply Hg. rewrite fmap_cons. right. exact Hin.
Qed.

Lemma fold_put_lookup (l : list B) (sc : gmap Group Vector3.t) (b : B) :
  NoDup (key <$> l) -> b ∈ l -> fold_left put l sc !! key b = Some (val b).
Proof.
  revert sc. induction l as [|a l IH]; intros sc Hnd Hb.
  - apply elem_of_nil in Hb. contradiction.
  - rewrite fmap_cons in Hnd. apply NoDup_cons in Hnd as [Ha Hnd].
    cbn [fold_left]. apply elem_of_cons in Hb as [-> | Hb].
    + rewrite fold_put_other by exact Ha. subst put. cbn. apply lookup_insert_eq.
    + apply IH; assumption.
Qed.
End PutFold.

Section ReflowFrame.
Context `{External}.
Variable props : FlexProps.
Variable rootNode : YogaNode.

Lemma recalcSizes_other (s : FlexState) (n : YogaNode) :
  n ∉ node <$> boxesRef s ->
  nodeStyle (yoga (exec (recalcSizes props) s)) n = nodeStyle (yoga s) n.
Proof.
  intros Hn. destruct (disableSizeRecalc props) eqn:Hd; unfold exec.
  - rewrite (recalcSizes_disabled props s Hd). reflexivity.
  - rewrite (recalcSizes_enabled props s Hd).
    apply (sizePass_other props (boxesRef s) s n Hn).
Qed.

Lemma recalcSizes_keeps_inputs (s : FlexState) :
  boxesRef (exec (recalcSizes props) s) = boxesRef s /\
  sameSizeInputs (exec (recalcSizes props) s) s.
Proof.
  rewrite recalcSizes_writes. split; [reflexivity|]. repeat split.
  intros n. cbn. unfold yoga_getChildCount. rewrite children_applyWrites. reflexivity.
Qed.

(** X9. Size inference is idempotent: running the size pass a second time
    makes the same calls and leaves the state as the first pass left it. *)
Theorem recalcSizes_idempotent (s : FlexState) :
  let s1 := exec (recalcSizes props) s in
  events (recalcSizes props) s1 = events (recalcSizes props) s /\
  exec (recalcSizes props) s1 = s1.
Proof.
  intros s1. destruct (recalcSizes_keeps_inputs s) as [Hb Hsame]. fold s1 in Hb, Hsame.
  assert (events (recalcSizes props) s1 = events (recalcSizes props) s) as Hev
    by (apply recalcSizes_events_ext; assumption).
  split; [exact Hev|].
  rewrite (recalcSizes_writes props s1), Hev. subst s1.
  rewrite (recalcSizes_writes props s). cbn.
  rewrite applyWrites_replay. reflexivity.
Qed.

(** X10. A reflow whose listener is passive leaves the registry, the root
    group and the children of every solver node as they were. *)
Theorem reflow_preserves_registry (s : FlexState) :
  quietListener props ->
  let s' := exec (reflow props rootNode) s in
  boxesRef s' = boxesRef s /\ rootGroup s' = rootGroup s /\
  forall n : YogaNode,
    children (nodeStyle (yoga s') n) = children (nodeStyle (yoga s) n).
Proof.
  intros Hquiet s'. subst s'. rewrite exec_reflow.
  destruct (afterListener_quiet props rootNode s Hquiet) as [d ->].
  destruct (laidOut_frame props rootNode s) as (Hb & _ & Hr & _ & Hst).
  cbn. split; [exact Hb|]. split; [exact Hr|].
  intros n. rewrite (nodeStyle_styles _ _ n Hst), recalcSizes_writes. cbn.
  apply children_applyWrites.
Qed.

(** X11. A reflow whose listener is passive writes only to what is
    registered: the width and height of a node without a record, and the
    position of a group without a record, are what they were. *)
Theorem reflow_touches_only_registered (s : FlexState) :
  quietListener props ->
  let s' := exec (reflow props rootNode) s in
  (forall n : YogaNode,
     n ∉ node <$> boxesRef s -> nodeStyle (yoga s') n = nodeStyle (yoga s) n) /\
  (forall g : Group,
     g ∉ group <$> boxesRef s -> scene s' !! g = scene s !! g).
Proof.
  intros Hquiet s'. subst s'. rewrite exec_reflow.
  destruct (afterListener_quiet props rootNode s Hquiet) as [d ->].
  destruct (laidOut_frame props rootNode s) as (_ & _ & _ & Hsc & Hst).
  cbn. split.
  - intros n Hn. rewrite (nodeStyle_styles _ _ n Hst). apply recalcSizes_other, Hn.
  - intros g Hg. rewrite Hsc.
    apply (fold_put_other group (positionOf props rootNode s)), Hg.
Qed.

(** X12. After a reflow whose listener is passive, in a registry whose
    groups are distinct, the position stored for the group of every
    registered box is the position computed for that box. *)
Theorem reflow_scene_positions (s : FlexState) (b : BoxesItem) :
  quietListener props ->
  NoDup (group <$> boxesRef s) ->
  b ∈ boxesRef s ->
  scene (exec (reflow props rootNode) s) !! group b =
  Some (positionOf props rootNode s b).
Proof.
  intros Hquiet Hnd Hb. rewrite exec_reflow.
  destruct (afterListener_quiet props rootNode s Hquiet) as [d ->]. cbn.
  apply (fold_put_lookup group (positionOf props rootNode s)); assumption.
Qed.
End ReflowFrame.

(** ** The calls of a reflow *)

Section ReflowCalls.
Context `{External}.
Variable props : FlexProps.
Variable rootNode : YogaNode.

Let sf := scaleFactor props.

(** X13. Every reflow makes its calls in this order: first the
    measurements and size writes of the size pass and nothing else, then
    the one layout computation, then the position copies in registration
    order, then the notification if there is a listener, then one
    [invalidate] for each [requestReflow] the listener makes, and last
    the [invalidate] of the reflow itself. *)
Theorem reflow_call_order (s : FlexState) :
  events (reflow props rootNode) s =
    events (recalcSizes props) s ++ [layoutCall props rootNode] ++
    positionCalls props rootNode s ++ reflowNotification props rootNode s ++
    replicate
      (length (filter (fun c => isRequestReflow c = true)
                 (listenerCalls props rootNode s))) EvInvalidate ++
    [EvInvalidate] /\
  Forall (fun e => isSizing e = true) (events (recalcSizes props) s) /\
  Forall (fun e => isPositionCopy e = true) (positionCalls props rootNode s) /\
  Forall (fun e => isOnReflow e = true) (reflowNotification props rootNode s).
Proof.
  split; [|split; [|split]].
  - rewrite events_reflow. unfold listenerEvents. rewrite events_runCalls. reflexivity.
  - apply recalcSizes_sizing.
  - apply (positionCalls_filter props rootNode isPositionCopy s true (fun _ _ => eq_refl)).
  - apply (reflowNotification_filter props rootNode isOnReflow s true (fun _ _ => eq_refl)).
Qed.

(** X14. With size recalculation disabled a reflow measures nothing and
    writes no size; with a passive listener the widths and heights of all
    nodes are what they were. *)
Theorem size_recalc_disabled (s : FlexState) :
  disableSizeRecalc props = true ->
  filter (fun e => isSizing e = true) (events (reflow props rootNode) s) = [] /\
  (quietListener props ->
   styles (yoga (exec (reflow props rootNode) s)) = styles (yoga s)).
Proof.
  intros Hd. split.
  - rewrite events_reflow, !filter_app.
    unfold events. rewrite (recalcSizes_disabled props s Hd). cbn [snd].
    rewrite (filter_none _ _
      (positionCalls_filter props rootNode isSizing s false (fun _ _ => eq_refl))).
    rewrite (filter_none _ _
      (reflowNotification_filter props rootNode isSizing s false (fun _ _ => eq_refl))).
    rewrite (filter_none _ _ (listenerEvents_filter props rootNode isSizing s false eq_refl)).
    reflexivity.
  - intros Hquiet. rewrite exec_reflow.
    destruct (afterListener_quiet props rootNode s Hquiet) as [d ->].
    destruct (laidOut_frame props rootNode s) as (_ & _ & _ & _ & Hst).
    cbn. rewrite Hst. unfold exec. rewrite (recalcSizes_disabled props s Hd).
    reflexivity.
Qed.

(** X15. A reflow of a container without boxes computes the layout and
    copies no position.  If there is a listener it is handed
    [((0 - 0) / scaleFactor, (0 - 0) / scaleFactor)], which is zero by zero
    for a scale factor other than zero, and each [requestReflow] it makes
    calls [invalidate]; the reflow ends with its own [invalidate]. *)
Theorem empty_registry_reflow (s : FlexState) :
  boxesRef s = [] ->
  events (reflow props rootNode) s =
    layoutCall props rootNode ::
    match onReflow props with
    | Some listener =>
        EvOnReflow ((0 - 0) / sf) ((0 - 0) / sf) ::
        replicate
          (length (filter (fun c => isRequestReflow c = true)
                     (listener ((0 - 0) / sf) ((0 - 0) / sf)))) EvInvalidate
    | None => []
    end ++ [EvInvalidate] /\
  (~ sf == 0 -> (0 - 0) / sf == 0).
Proof.
  intros Hs. split; [|intros Hsf; field; exact Hsf].
  rewrite events_reflow.
  assert (events (recalcSizes props) s = []) as ->.
  { destruct (disableSizeRecalc props) eqn:Hd; unfold events.
    - rewrite (recalcSizes_disabled props s Hd). reflexivity.
    - rewrite (recalcSizes_enabled props s Hd), Hs. reflexivity. }
  unfold listenerEvents. rewrite events_runCalls.
  unfold positionCalls, reflowNotification, listenerCalls, reflowTotals, boxLayouts.
  rewrite Hs. cbn. destruct (onReflow props); reflexivity.
Qed.

(** X16. For a positive scale factor the reported extent is never
    negative and is at least as wide and as high as every registered box. *)
Theorem reported_extent_covers_boxes (s : FlexState) :
  0 < sf ->
  0 <= (reflowTotals props rootNode s).1 /\
  0 <= (reflowTotals props rootNode s).2 /\
  forall l : Layout.t, l ∈ boxLayouts props rootNode s ->
    Layout.width l / sf <= (reflowTotals props rootNode s).1 /\
    Layout.height l / sf <= (reflowTotals props rootNode s).2.
Proof.
  intros Hsf. unfold reflowTotals. cbn [fst snd boundsFrom minX maxX minY maxY].
  set (ls := boxLayouts props rootNode s).
  destruct (fold_Qmin_spec Layout.left ls 0) as (HminX & HminXall & _).
  destruct (fold_Qmax_spec (fun l => Layout.left l + Layout.width l) ls 0)
    as (HmaxX & HmaxXall & _).
  destruct (fold_Qmin_spec Layout.top ls 0) as (HminY & HminYall & _).
  destruct (fold_Qmax_spec (fun l => Layout.top l + Layout.height l) ls 0)
    as (HmaxY & HmaxYall & _).
  cbn zeta in *.
  assert (0 <= / scaleFactor props) as Hinv
    by (apply Qinv_le_0_compat, Qlt_le_weak, Hsf).
  unfold Qdiv. fold sf. split; [|split].
  - apply Qmult_le_0_compat; [lra | exact Hinv].
  - apply Qmult_le_0_compat; [lra | exact Hinv].
  - intros l Hl. specialize (HminXall l Hl). specialize (HmaxXall l Hl).
    specialize (HminYall l Hl). specialize (HmaxYall l Hl). cbn beta in *.
    split; apply Qmult_le_compat_r; try exact Hinv; lra.
Qed.
End ReflowCalls.

(** ** Size inference: which boxes are measured, and what they get *)

Section Measurement.
Context `{External}.
Variable props : FlexProps.

Let sf := scaleFactor props.

Lemma needsMeasurement_ext (s t : FlexState) (b : BoxesItem) :
  (forall n, yoga_getChildCount n (yoga t) = yoga_getChildCount n (yoga s)) ->
  needsMeasurement t b = needsMeasurement s b.
Proof. intros Hc. unfold needsMeasurement. rewrite Hc. reflexivity. Qed.

Lemma recalcSize_measurements (b : BoxesItem) (t : FlexState) :
  filter (fun e => isMeasurement e = true) (events (recalcSize props b) t) =
  if needsMeasurement t b then [measurementCall t (group b)] else [].
Proof.
  unfold needsMeasurement, events.
  destruct (recalcSize_cases b t) as [(w & h & Hw & Hh) | [[Hm Hc] | [Hm Hc]]].
  - rewrite (recalcSize_forced props b t w h Hw Hh), Hw, Hh. reflexivity.
  - rewrite (recalcSize_derived props b t Hm Hc).
    apply Nat.eqb_neq in Hc. rewrite Hc.
    destruct (width (flexProps b)), (height (flexProps b)); reflexivity.
  - rewrite (recalcSize_measured props b t Hm Hc), Hc. cbn [snd].
    assert (isMeasurement (measurementCall t (group b)) = true) as Hmeas
      by (unfold measurementCall; destruct (rootGroup t); reflexivity).
    rewrite filter_cons_True by exact Hmeas.
    destruct Hm as [Hm | Hm]; rewrite Hm;
      destruct (width (flexProps b)), (height (flexProps b)); reflexivity.
Qed.

Lemma sizePass_measurements (l : list BoxesItem) (s t : FlexState) :
  rootGroup t = rootGroup s ->
  (forall n, yoga_getChildCount n (yoga t) = yoga_getChildCount n (yoga s)) ->
  filter (fun e => isMeasurement e = true) (events (forEach l (recalcSize props)) t) =
  (fun b => measurementCall s (group b)) <$>
    filter (fun b => needsMeasurement s b = true) l.
Proof.
  revert t. induction l as [|b l IH]; intros t Hr Hc; [reflexivity|].
  rewrite events_forEach_cons, filter_app, recalcSize_measurements.
  rewrite (needsMeasurement_ext s t b Hc).
  destruct (recalcSize_keeps_inputs props b t) as (Hroot & _ & Hkeep).
  rewrite IH.
  - unfold measurementCall. rewrite Hr.
    destruct (needsMeasurement s b) eqn:Hb.
    + rewrite filter_cons_True by exact Hb. reflexivity.
    + rewrite filter_cons_False by congruence. reflexivity.
  - rewrite <- Hroot. exact Hr.
  - intros n. rewrite <- Hc. symmetry. apply Hkeep.
Qed.

(** X17. The measurements of a reflow are exactly, in registration order,
    one measurement of the group of each registered box that lacks a width
    or a height and whose node is a leaf -- relative to the root group when
    it is set, of the box alone otherwise -- and none for any other box;
    with size recalculation disabled there is none at all. *)
Theorem measurement_calls (rootNode : YogaNode) (s : FlexState) :
  filter (fun e => isMeasurement e = true) (events (reflow props rootNode) s) =
  if disableSizeRecalc props then []
  else (fun b => measurementCall s (group b)) <$>
         filter (fun b => needsMeasurement s b = true) (boxesRef s).
Proof.
  rewrite events_reflow, !filter_app.
  rewrite (filter_none _ _
    (positionCalls_filter props rootNode isMeasurement s false (fun _ _ => eq_refl))).
  rewrite (filter_none _ _
    (reflowNotification_filter props rootNode isMeasurement s false (fun _ _ => eq_refl))).
  rewrite (filter_none _ _
    (listenerEvents_filter props rootNode isMeasurement s false eq_refl)).
  change (filter (fun e => isMeasurement e = true) [layoutCall props rootNode])
    with (@nil Event).
  change (filter (fun e => isMeasurement e = true) [EvInvalidate]) with (@nil Event).
  cbn [app]. rewrite app_nil_r.
  destruct (disableSizeRecalc props) eqn:Hd; unfold events.
  - rewrite (recalcSizes_disabled props s Hd). reflexivity.
  - rewrite (recalcSizes_enabled props s Hd).
    apply (sizePass_measurements (boxesRef s) s s); reflexivity.
Qed.

(** X18. A leaf box with one dimension given keeps it and has the other
    measured: a width that is truthy after scaling is written as it is and
    the height becomes the measured cross extent times the scale factor,
    and symmetrically; a leaf box with neither gets both from the
    measurement.  In each case the box is measured once. *)
Theorem partial_size_is_completed (b : BoxesItem) (s : FlexState) :
  yoga_getChildCount (node b) (yoga s) = 0%nat ->
  let s' := exec (recalcSize props b) s in
  let vec := measuredExtent s (group b) in
  let measuredWidth := YNum (Vector3.get (mainAxis (plane props)) vec * sf) in
  let measuredHeight := YNum (Vector3.get (crossAxis (plane props)) vec * sf) in
  (forall w, width (flexProps b) = Some w -> height (flexProps b) = None ->
     truthy (scaleDim sf w) = true ->
     styleWidth (nodeStyle (yoga s') (node b)) = Some (scaleDim sf w) /\
     styleHeight (nodeStyle (yoga s') (node b)) = Some measuredHeight) /\
  (forall h, height (flexProps b) = Some h -> width (flexProps b) = None ->
     truthy (scaleDim sf h) = true ->
     styleWidth (nodeStyle (yoga s') (node b)) = Some measuredWidth /\
     styleHeight (nodeStyle (yoga s') (node b)) = Some (scaleDim sf h)) /\
  (width (flexProps b) = None -> height (flexProps b) = None ->
     styleWidth (nodeStyle (yoga s') (node b)) = Some measuredWidth /\
     styleHeight (nodeStyle (yoga s') (node b)) = Some measuredHeight) /\
  (width (flexProps b) = None \/ height (flexProps b) = None ->
     filter (fun e => isMeasurement e = true) (events (recalcSize props b) s) =
       [measurementCall s (group b)]).
Proof.
  intros Hleaf s' vec mw mh.
  assert (forall Hm : width (flexProps b) = None \/ height (flexProps b) = None,
    styleWidth (nodeStyle (yoga s') (node b)) =
      Some (orElse (scaleValue sf (width (flexProps b))) mw) /\
    styleHeight (nodeStyle (yoga s') (node b)) =
      Some (orElse (scaleValue sf (height (flexProps b))) mh)) as Hstep.
  { intros Hm. subst s'. unfold exec.
    rewrite (recalcSize_measured props b s Hm Hleaf). cbn.
    rewrite nodeStyle_setHeight_eq, nodeStyle_setWidth_eq. split; reflexivity. }
  split; [|split; [|split]].
  - intros w Hw Hh Ht. destruct (Hstep (or_intror Hh)) as [-> ->].
    rewrite Hw, Hh, scaleValue_Some. cbn [orElse scaleValue]. rewrite Ht.
    split; reflexivity.
  - intros h Hh Hw Ht. destruct (Hstep (or_introl Hw)) as [-> ->].
    rewrite Hw, Hh, scaleValue_Some. cbn [orElse scaleValue]. rewrite Ht.
    split; reflexivity.
  - intros Hw Hh. destruct (Hstep (or_introl Hw)) as [-> ->].
    rewrite Hw, Hh. split; reflexivity.
  - intros Hm. rewrite recalcSize_measurements.
    unfold needsMeasurement. rewrite Hleaf.
    destruct Hm as [Hm | Hm]; rewrite Hm;
      destruct (width (flexProps b)), (height (flexProps b)); reflexivity.
Qed.
End Measurement.

(** ** Registration, request and frame together *)

(** X19. A box that is registered and for which a reflow is requested is
    positioned by the next frame: that frame computes the layout once and
    copies to the box's group the position computed for the box. *)
Theorem registered_box_is_positioned `{External} (props : FlexProps)
    (rootNode : YogaNode) (n : YogaNode) (g : Group) (fp : R3FlexProps)
    (ca : bool) (s : FlexState) :
  let s1 := exec (registerBox n g fp ca;; requestReflow) s in
  recomputations (events (frame props rootNode) s1) = 1%nat /\
  EvPositionCopy g
    (positionOf props rootNode (set_dirtyRef false s1) (mkBox n g fp ca))
  ∈ events (frame props rootNode) s1.
Proof.
  intros s1.
  assert (dirtyRef s1 = true) as Hd by (subst s1; rewrite exec_bind; reflexivity).
  assert (mkBox n g fp ca ∈ boxesRef s1) as Hin.
  { subst s1. rewrite exec_bind. cbn. unfold exec.
    destruct (registerBox_cases n g fp ca s)
      as [[_ ->] | (l1 & old & l2 & _ & _ & _ & ->)]; cbn;
      apply elem_of_app; right; left. }
  split; [apply frame_recomputes_once, Hd|].
  unfold events. rewrite (frame_dirty props rootNode s1 Hd).
  fold (events (reflow props rootNode) (set_dirtyRef false s1)).
  rewrite events_reflow.
  apply elem_of_app. right. apply elem_of_cons. right.
  apply elem_of_app. left. unfold positionCalls.
  apply (list_elem_of_fmap_2 (fun b => EvPositionCopy (group b)
           (positionOf props rootNode (set_dirtyRef false s1) b))
           (boxesRef (set_dirtyRef false s1)) (mkBox n g fp ca)).
  exact Hin.
Qed.

(** ** The further properties on concrete runs *)

Ltac by_decide := apply (bool_decide_unpack _); vm_compute; exact I.

Lemma samplePropsListening_quiet : quietListener samplePropsListening.
Proof. intros w h. repeat constructor. Qed.

Lemma findIndex_spec_witness :
  (0 <= findIndex (sameNode 2%nat) (boxesRef sampleState) < 3)%Z.
Proof.
  destruct (findIndex_spec (sameNode 2%nat) (boxesRef sampleState))
    as [[Hnone _] | [Hrange _]].
  - vm_compute in Hnone. discriminate.
  - exact Hrange.
Defined.

Lemma registerBox_lookup_witness :
  lookupBox 1%nat (exec (registerBox 2%nat 22%nat (mkProps None None) false) sampleState)
  = lookupBox 1%nat sampleState.
Proof.
  apply (proj2 (registerBox_lookup 2%nat 22%nat (mkProps None None) false sampleState)).
  discriminate.
Defined.

Lemma unregisterBox_lookup_witness :
  lookupBox 2%nat (exec (unregisterBox 2%nat) sampleState) = None.
Proof.
  apply (proj2 (unregisterBox_lookup 2%nat sampleState)).
  by_decide.
Defined.

Lemma register_unregister_roundtrip_witness :
  (registerBox 7%nat 17%nat (mkProps None None) false;; unregisterBox 7%nat) sampleState
  = (tt, sampleState, []).
Proof.
  apply register_unregister_roundtrip.
  by_decide.
Defined.

Lemma registry_nodes_unique_witness :
  NoDup (node <$> boxesRef
           (exec (runCalls [CallRegisterBox 5%nat 15%nat (mkProps None None) false;
                            CallUnregisterBox 1%nat; CallRequestReflow;
                            CallRegisterBox 5%nat 16%nat (mkProps None None) true])
              sampleState)).
Proof.
  apply registry_nodes_unique.
  by_decide.
Defined.

Lemma registry_calls_do_not_schedule_witness :
  let s' := exec (runCalls [CallRegisterBox 5%nat 15%nat (mkProps None None) false;
                            CallUnregisterBox 1%nat]) cleanState in
  @frame plainExternal sampleProps 0%nat s' = (tt, s', []).
Proof.
  cbv zeta.
  assert (Forall (fun c => isRequestReflow c = false)
            [CallRegisterBox 5%nat 15%nat (mkProps None None) false;
             CallUnregisterBox 1%nat]) as Hcalls by (repeat constructor).
  destruct (@registry_calls_do_not_schedule plainExternal sampleProps 0%nat _
              cleanState Hcalls) as [_ Hframe].
  apply Hframe. reflexivity.
Defined.

Lemma reflow_preserves_registry_witness :
  boxesRef (exec (@reflow plainExternal samplePropsListening 0%nat) sampleState)
  = boxesRef sampleState.
Proof.
  apply (proj1 (@reflow_preserves_registry plainExternal samplePropsListening 0%nat
                  sampleState samplePropsListening_quiet)).
Defined.

Lemma reflow_touches_only_registered_witness :
  scene (exec (@reflow plainExternal samplePropsListening 0%nat) sampleState) !! 99%nat
  = scene sampleState !! 99%nat.
Proof.
  apply (proj2 (@reflow_touches_only_registered plainExternal samplePropsListening 0%nat
                  sampleState samplePropsListening_quiet)).
  by_decide.
Defined.

Lemma reflow_scene_positions_witness :
  scene (exec (@reflow plainExternal samplePropsListening 0%nat) sampleState) !! 12%nat
  = Some (@positionOf plainExternal samplePropsListening 0%nat sampleState zeroWidthBox).
Proof.
  apply (@reflow_scene_positions plainExternal samplePropsListening 0%nat
           sampleState zeroWidthBox samplePropsListening_quiet).
  - by_decide.
  - right. left.
Defined.

Lemma size_recalc_disabled_witness :
  filter (fun e => isSizing e = true)
    (events (@reflow plainExternal samplePropsNoRecalc 0%nat) sampleState) = [] /\
  styles (yoga (exec (@reflow plainExternal samplePropsNoRecalc 0%nat) sampleState))
  = styles (yoga sampleState).
Proof.
  destruct (@size_recalc_disabled plainExternal samplePropsNoRecalc 0%nat sampleState
              eq_refl) as [Hcalls Hstyles].
  split; [exact Hcalls | exact (Hstyles I)].
Defined.

Lemma empty_registry_reflow_witness :
  events (@reflow plainExternal samplePropsListening 0%nat) initialState =
    [layoutCall samplePropsListening 0%nat;
     EvOnReflow ((0 - 0) / 100) ((0 - 0) / 100); EvInvalidate; EvInvalidate] /\
  (0 - 0) / 100 == 0.
Proof.
  destruct (@empty_registry_reflow plainExternal samplePropsListening 0%nat
              initialState eq_refl) as [Hcalls Hzero].
  split; [exact Hcalls|]. apply Hzero. discriminate.
Defined.

Lemma reported_extent_covers_boxes_witness :
  0 <= (@reflowTotals paddedExternal sampleProps 0%nat sampleState).1 /\
  0 <= (@reflowTotals paddedExternal sampleProps 0%nat sampleState).2.
Proof.
  destruct (@reported_extent_covers_boxes paddedExternal sampleProps 0%nat sampleState
              eq_refl) as (Hw & Hh & _).
  split; [exact Hw | exact Hh].
Defined.

Lemma partial_size_is_completed_witness :
  let s' := exec (@recalcSize plainExternal sampleProps wideBox) sampleState in
  styleWidth (nodeStyle (yoga s') 5%nat) = Some (YNum (2 * 100)) /\
  styleHeight (nodeStyle (yoga s') 5%nat) = Some (YNum (2 * 100)).
Proof.
  cbv zeta.
  pose proof (@partial_size_is_completed plainExternal sampleProps wideBox sampleState
                eq_refl) as W.
  cbv zeta in W. destruct W as (Hwidth & _).
  apply (Hwidth (YNum 2) eq_refl eq_refl eq_refl).
Defined.
